(** * Useless Test Detector: a shallow embedding of [src/index.ts]

    The engine reads test files, runs seven textual detectors over each
    file's content, grades the file by the number of detectors that fired
    and returns the graded files filtered and sorted.

    Strings are JavaScript strings: sequences of UTF-16 code units, here
    [list N].  Regular expressions are embedded as an abstract syntax with a
    backtracking matcher that follows the priorities of the ECMAScript
    matcher (leftmost start, alternatives left to right, greedy repetition). *)

From Stdlib Require Import List Bool Arith NArith ZArith Lia String Ascii.
From Stdlib Require Import Sorted Permutation DecimalString.
Import ListNotations.

(* ------------------------------------------------------------------ *)
(** ** JavaScript strings *)

Definition jsstring := list N.

(** A literal of the source, written as a Rocq string of ASCII characters. *)
Definition js (s : string) : jsstring :=
  map N_of_ascii (list_ascii_of_string s).

Definition jsstring_eqb (s t : jsstring) : bool :=
  if list_eq_dec N.eq_dec s t then true else false.

(** [s.startsWith(p)] *)
Fixpoint startsWith (s p : jsstring) {struct p} : bool :=
  match p with
  | [] => true
  | c :: p' =>
      match s with
      | [] => false
      | d :: s' => N.eqb c d && startsWith s' p'
      end
  end.

(** [s.includes(sub)] *)
Fixpoint includes (s sub : jsstring) : bool :=
  startsWith s sub
  || match s with
     | [] => false
     | _ :: s' => includes s' sub
     end.

(** [s.split('\n')]: the pieces between line feeds (code unit 10). *)
Fixpoint split_lines (s : jsstring) : list jsstring :=
  match s with
  | [] => [[]]
  | c :: s' =>
      if N.eqb c 10%N then [] :: split_lines s'
      else match split_lines s' with
           | [] => [[c]]
           | l :: ls => (c :: l) :: ls
           end
  end.

(** The text a template literal gives for a non-negative integer. *)
Definition decimal (n : nat) : jsstring :=
  js (NilEmpty.string_of_uint (Nat.to_uint n)).

(* ------------------------------------------------------------------ *)
(** ** Regular expressions *)

Module RegExp.

Local Open Scope N_scope.

(** Character classes of ECMAScript (no [u], [i] or [s] flag). *)
Definition isLineTerminator (c : N) : bool :=
  (c =? 10) || (c =? 13) || (c =? 8232) || (c =? 8233).

Definition isWhiteSpace (c : N) : bool :=
  ((9 <=? c) && (c <=? 13)) || (c =? 32) || (c =? 160) || (c =? 5760)
  || ((8192 <=? c) && (c <=? 8202)) || (c =? 8232) || (c =? 8233)
  || (c =? 8239) || (c =? 8287) || (c =? 12288) || (c =? 65279).

Definition isWordChar (c : N) : bool :=
  ((48 <=? c) && (c <=? 57)) || ((65 <=? c) && (c <=? 90))
  || ((97 <=? c) && (c <=? 122)) || (c =? 95).

Definition isAnyOf (cs : list N) (c : N) : bool := existsb (N.eqb c) cs.
Definition isNoneOf (cs : list N) (c : N) : bool := negb (isAnyOf cs c).

Inductive regex : Type :=
| Empty                         (* the empty pattern *)
| Char (p : N -> bool)          (* one code unit of a class *)
| Seq (r1 r2 : regex)           (* r1 r2 *)
| Alt (r1 r2 : regex)           (* r1|r2 *)
| Star (r : regex)              (* r*, greedy *)
| LineStart                     (* ^ under the m flag *)
| InputEnd                      (* $ without the m flag *)
| NotBehind (w : jsstring).     (* (?<!w) for a literal w *)

(** Derived forms. *)
Definition chr (c : N) : regex := Char (N.eqb c).
Definition plus (r : regex) : regex := Seq r (Star r).
Definition opt (r : regex) : regex := Alt r Empty.

Fixpoint lit (w : jsstring) : regex :=
  match w with
  | [] => Empty
  | c :: w' => Seq (chr c) (lit w')
  end.

Fixpoint seqs (rs : list regex) : regex :=
  match rs with
  | [] => Empty
  | [r] => r
  | r :: rs' => Seq r (seqs rs')
  end.

Fixpoint alts (rs : list regex) : regex :=
  match rs with
  | [] => Empty
  | [r] => r
  | r :: rs' => Alt r (alts rs')
  end.

Definition word (s : string) : regex := lit (js s).
Definition words (ss : list string) : regex := alts (map word ss).

Definition any : regex := Char (fun c => negb (isLineTerminator c)).  (* . *)
Definition space : regex := Char isWhiteSpace.                        (* \s *)
Definition wordChar : regex := Char isWordChar.                       (* \w *)

(** A position in the input: the code units before it, nearest first, and
    the code units from it on. *)
Definition position : Type := (jsstring * jsstring)%type.
Definition continuation : Type := jsstring -> jsstring -> option position.

(** Greedy repetition of [body], the matcher of the repeated pattern: as
    many iterations as possible, then [k].  An iteration that consumes
    nothing is refused, as by RepeatMatcher, so from [a] at most [length a]
    iterations are possible, and [n] counts them down. *)
Fixpoint iterate (body : continuation -> continuation) (k : continuation)
  (n : nat) (b a : jsstring) {struct n} : option position :=
  match n with
  | O => k b a
  | S n' =>
      match
        body
          (fun b' a' =>
             if (List.length a' <? List.length a)%nat
             then iterate body k n' b' a'
             else None)
          b a
      with
      | Some e => Some e
      | None => k b a
      end
  end.

(** [run r k b a] matches [r] at the position [(b, a)] and hands the
    position reached to [k]; the first success in priority order wins. *)
Fixpoint run (r : regex) (k : continuation) (b a : jsstring) {struct r}
  : option position :=
  match r with
  | Empty => k b a
  | Char p =>
      match a with
      | c :: a' => if p c then k (c :: b) a' else None
      | [] => None
      end
  | Seq r1 r2 => run r1 (run r2 k) b a
  | Alt r1 r2 =>
      match run r1 k b a with
      | Some e => Some e
      | None => run r2 k b a
      end
  | Star r1 => iterate (run r1) k (List.length a) b a
  | LineStart =>
      match b with
      | [] => k b a
      | c :: _ => if isLineTerminator c then k b a else None
      end
  | InputEnd =>
      match a with
      | [] => k b a
      | _ :: _ => None
      end
  | NotBehind w => if startsWith b (rev w) then None else k b a
  end.

Definition accept : continuation := fun b a => Some (b, a).

(** One match, as [RegExpBuiltinExec] finds it from the position [(b, a)]
    on: where it starts and where it ends. *)
Fixpoint exec (r : regex) (b a : jsstring) {struct a}
  : option (position * position) :=
  match run r accept b a with
  | Some e => Some ((b, a), e)
  | None =>
      match a with
      | [] => None
      | c :: a' => exec r (c :: b) a'
      end
  end.

(** [r.test(s)] and the truth value of [s.match(r)], for [r] without the
    [g] flag. *)
Definition test (r : regex) (s : jsstring) : bool :=
  match exec r [] s with
  | Some _ => true
  | None => false
  end.

(** [s.match(r)] for [r] with the [g] flag: the matched texts, left to
    right; the empty list stands for [null].  After an empty match the
    search resumes one code unit further.  Every round moves forward by at
    least one code unit, so [fuel] rounds are enough when [fuel] exceeds the
    number of code units left. *)
Fixpoint matchesFrom (fuel : nat) (r : regex) (b a : jsstring)
  : list jsstring :=
  match fuel with
  | O => []
  | S fuel' =>
      match exec r b a with
      | None => []
      | Some ((_, a0), (b1, a1)) =>
          let text := firstn (List.length a0 - List.length a1) a0 in
          if (List.length a1 <? List.length a0)%nat then
            text :: matchesFrom fuel' r b1 a1
          else
            match a1 with
            | [] => [text]
            | c :: a1' => text :: matchesFrom fuel' r (c :: b1) a1'
            end
      end
  end.

Definition matchAll (r : regex) (s : jsstring) : list jsstring :=
  matchesFrom (S (List.length s)) r [] s.

End RegExp.

Import RegExp.

Open Scope string_scope.
Open Scope list_scope.

(* ------------------------------------------------------------------ *)
(** ** The data model of [src/index.ts] *)

Inductive Confidence : Type := high | medium | low.

Record SuspiciousTest : Type := mkSuspiciousTest {
  file : jsstring;
  reasons : list jsstring;
  confidence : Confidence;
  lineCount : nat
}.

Record DetectorOptions : Type := mkDetectorOptions {
  directories : option (list jsstring);
  minConfidence : option jsstring;
  testPatterns : option (list regex)
}.

(** The two quote characters, which a Rocq string cannot hold conveniently,
    and the two path separators. *)
Definition apostrophe : N := 39.
Definition quotation : N := 34.
Definition slash : N := 47.
Definition backslash : N := 92.

Definition extensions : regex := words ["ts"; "tsx"; "js"; "jsx"; "mjs"; "cjs"].

(** [/\.(test|spec)\.(ts|tsx|js|jsx|mjs|cjs)$/] *)
Definition DEFAULT_TEST_PATTERNS : list regex :=
  [ seqs [word "."; words ["test"; "spec"]; word "."; extensions; InputEnd] ].

(* ------------------------------------------------------------------ *)
(** ** The detectors of [analyzeTestFile] *)

(** [/^\s*(function|class|const)\s+\w+(Buffer|...|Strategy)/gm] *)
Definition inlineImplementations (content : jsstring) : list jsstring :=
  matchAll
    (seqs [LineStart; Star space; words ["function"; "class"; "const"];
           plus space; plus wordChar;
           words ["Buffer"; "Parser"; "Handler"; "Helper"; "Manager";
                  "Service"; "Client"; "Builder"; "Strategy"]])
    content.

(** [/import type|interface \w+|type \w+ =/] *)
Definition hasTypeImports (content : jsstring) : bool :=
  test
    (alts [word "import type";
           seqs [word "interface "; plus wordChar];
           seqs [word "type "; plus wordChar; word " ="]])
    content.

(** [/render\(|renderHook\(|new \w+\(|\.toHaveBeenCalled/] *)
Definition hasRuntimeTests (content : jsstring) : bool :=
  test
    (alts [word "render("; word "renderHook(";
           seqs [word "new "; plus wordChar; word "("];
           word ".toHaveBeenCalled"])
    content.

(** [/const \w+:\s*\w+\s*=\s*\{[^}]+\};\s+expect\(\w+\.\w+\)/g] *)
Definition mockAssertions (content : jsstring) : list jsstring :=
  matchAll
    (seqs [word "const "; plus wordChar; word ":"; Star space; plus wordChar;
           Star space; word "="; Star space; word "{";
           plus (Char (isNoneOf [125%N])); word "};"; plus space;
           word "expect("; plus wordChar; word "."; plus wordChar; word ")"])
    content.

(** [/from Q\.\.+(T)?(?<!\.test)(?<!\.spec)Q/], where [Q] is the class of
    the two quote characters and [T] is a slash followed by any number of
    characters that are not quotes. *)
Definition hasSourceImports (content : jsstring) : bool :=
  test
    (seqs [word "from "; Char (isAnyOf [apostrophe; quotation]);
           word "."; plus (word ".");
           opt (Seq (word "/") (Star (Char (isNoneOf [apostrophe; quotation]))));
           NotBehind (js ".test"); NotBehind (js ".spec");
           Char (isAnyOf [apostrophe; quotation])])
    content.

Definition hasTestingLibImports (content : jsstring) : bool :=
  includes content (js "@testing-library").

(** [/[/\\](integration|e2e)\.test\.(ts|tsx|js|jsx|mjs|cjs)$/] *)
Definition isIntegrationTest (filePath : jsstring) : bool :=
  test
    (seqs [Char (isAnyOf [slash; backslash]); words ["integration"; "e2e"];
           word ".test."; extensions; InputEnd])
    filePath.

(** [/expect\(typeof|expect\(.*\)\.toBe\(Q(?:string|number|boolean)/g], where
    [Q] is the class of the two quote characters. *)
Definition testsBuiltins (content : jsstring) : list jsstring :=
  matchAll
    (alts [word "expect(typeof";
           seqs [word "expect("; Star any; word ").toBe(";
                 Char (isAnyOf [apostrophe; quotation]);
                 words ["string"; "number"; "boolean"]]])
    content.

(** [content.match(/expect\(/g)?.length || 0] *)
Definition totalExpects (content : jsstring) : nat :=
  List.length (matchAll (word "expect(") content).

(** [/fetch\(|request\(|axios\.|supertest/] *)
Definition hasFetch (content : jsstring) : bool :=
  test (words ["fetch("; "request("; "axios."; "supertest"]) content.

(** [/render\(/] *)
Definition hasRender (content : jsstring) : bool :=
  test (word "render(") content.

(** The condition under which each anti-pattern pushes its reason.  For
    anti-pattern 6 the source compares the quotient of the two counts with
    0.5 in double precision; for counts below 2^52 that is the comparison of
    integers written here. *)
Definition antiPattern1 (content : jsstring) : bool :=
  (0 <? List.length (inlineImplementations content))%nat.

Definition antiPattern2 (content : jsstring) : bool :=
  hasTypeImports content && negb (hasRuntimeTests content).

Definition antiPattern3 (content : jsstring) : bool :=
  (3 <? List.length (mockAssertions content))%nat.

Definition antiPattern4 (content filePath : jsstring) : bool :=
  hasTestingLibImports content && negb (hasSourceImports content)
  && negb (isIntegrationTest filePath).

Definition antiPattern5 (content : jsstring) : bool :=
  includes content (js "In a real test") || includes content (js "would be actual").

Definition antiPattern6 (content : jsstring) : bool :=
  (0 <? List.length (testsBuiltins content))%nat
  && (0 <? totalExpects content)%nat
  && (totalExpects content <? 2 * List.length (testsBuiltins content))%nat.

Definition antiPattern7 (content filePath : jsstring) : bool :=
  isIntegrationTest filePath && (negb (hasFetch content) && negb (hasRender content)).

(** The reason strings. *)
Definition reason1 (n : nat) : jsstring :=
  js "Defines " ++ decimal n
  ++ js " inline implementation(s) instead of importing real ones".
Definition reason2 : jsstring :=
  js "Appears to test TypeScript types, not runtime behavior".
Definition reason3 (n : nat) : jsstring :=
  js "Creates " ++ decimal n ++ js " mock objects and asserts on hardcoded values".
Definition reason4 : jsstring :=
  js "No imports from actual implementation (only test utilities)".
Definition reason5 : jsstring :=
  js "Contains comments admitting these aren't real tests".
Definition reason6 : jsstring :=
  js "More than 50% of assertions test JavaScript built-ins (typeof, etc)".
Definition reason7 : jsstring :=
  js "Integration test that never makes HTTP requests or renders components".

(** [reasons.push(r)] under a condition. *)
Definition pushIf (c : bool) (r : jsstring) (reasons : list jsstring)
  : list jsstring :=
  if c then reasons ++ [r] else reasons.

(** The reason list as [analyzeTestFile] builds it, anti-pattern by
    anti-pattern. *)
Definition collectReasons (content filePath : jsstring) : list jsstring :=
  let reasons := [] in
  let reasons :=
    pushIf (antiPattern1 content)
      (reason1 (List.length (inlineImplementations content))) reasons in
  let reasons := pushIf (antiPattern2 content) reason2 reasons in
  let reasons :=
    pushIf (antiPattern3 content)
      (reason3 (List.length (mockAssertions content))) reasons in
  let reasons := pushIf (antiPattern4 content filePath) reason4 reasons in
  let reasons := pushIf (antiPattern5 content) reason5 reasons in
  let reasons := pushIf (antiPattern6 content) reason6 reasons in
  let reasons := pushIf (antiPattern7 content filePath) reason7 reasons in
  reasons.

(** What [analyzeTestFile] does once the content is read. *)
Definition analyze (content filePath : jsstring) : option SuspiciousTest :=
  let lines := split_lines content in
  let reasons := collectReasons content filePath in
  if (List.length reasons =? 0)%nat then None
  else
    let confidence :=
      if (3 <=? List.length reasons)%nat then high
      else if (2 <=? List.length reasons)%nat then medium
      else low in
    Some {| file := filePath;
            reasons := reasons;
            confidence := confidence;
            lineCount := List.length lines |}.

(* ------------------------------------------------------------------ *)
(** ** The host: [fs] and [path] of Node.js *)

(** The outcome of a call that may throw. *)
Inductive completion (A : Type) : Type :=
| Normal (value : A)
| Throw (error : jsstring).

Arguments Normal {A} value.
Arguments Throw {A} error.

Definition bind {A B : Type} (c : completion A) (f : A -> completion B)
  : completion B :=
  match c with
  | Normal v => f v
  | Throw e => Throw e
  end.

(** [xs.map(f)] for an [f] that may throw: the elements are visited in
    order and the first exception ends the call. *)
Fixpoint mapThrowing {A B : Type} (f : A -> completion B) (xs : list A)
  : completion (list B) :=
  match xs with
  | [] => Normal []
  | x :: xs' =>
      bind (f x) (fun y => bind (mapThrowing f xs') (fun ys => Normal (y :: ys)))
  end.

(** What the traversal can observe of a path: [statSync] throws on it, or
    it is a file, or it is a directory (anything that is not a directory
    counts as a file), and for a directory what [readdirSync] answers, the
    names of its items with what each of them is, or [None] when
    [readdirSync] throws. *)
#[warnings="-register-all"]
Inductive dirent : Type :=
| Missing
| File
| Directory (items : option (list (jsstring * dirent))).

Definition isDirectory (d : dirent) : bool :=
  match d with
  | Directory _ => true
  | _ => false
  end.

(** The host functions the engine calls.  [entryAt] describes what
    [readdirSync] and [statSync] answer at and below a path handed to
    [findTestFiles]; [readFileSync] is kept apart from it, since a file can
    change between its enumeration and its reading. *)
Record Host : Type := mkHost {
  join : jsstring -> jsstring -> jsstring;
  entryAt : jsstring -> dirent;
  readFileSync : jsstring -> completion jsstring
}.

(* ------------------------------------------------------------------ *)
(** ** [findTestFiles] *)

Definition excluded (item : jsstring) : bool :=
  includes item (js "node_modules") || includes item (js "dist").

(** The loop of [findTestFiles] over the items of [dir]; [recurse] is the
    recursive call.  When [statSync] throws on an item the loop is left and
    the files pushed so far are the result. *)
Section Items.
Variable join : jsstring -> jsstring -> jsstring.
Variable patterns : list regex.
Variable recurse : jsstring -> dirent -> list jsstring.
Variable dir : jsstring.

Fixpoint eachItem (items : list (jsstring * dirent)) (files : list jsstring)
  {struct items} : list jsstring :=
  match items with
  | [] => files
  | (item, sub) :: rest =>
      let fullPath := join dir item in
      match sub with
      | Missing => files
      | _ =>
          if isDirectory sub
             && negb (includes item (js "node_modules"))
             && negb (includes item (js "dist"))
          then eachItem rest (files ++ recurse fullPath sub)
          else if existsb (fun pattern => test pattern item) patterns
          then eachItem rest (files ++ [fullPath])
          else eachItem rest files
      end
  end.
End Items.

(** The body of [findTestFiles(dir, patterns)], given what [dir] is: when
    [readdirSync] throws, the result is empty. *)
Fixpoint findTestFilesIn (join : jsstring -> jsstring -> jsstring)
  (patterns : list regex) (dir : jsstring) (d : dirent) {struct d}
  : list jsstring :=
  match d with
  | Directory (Some items) =>
      eachItem join patterns (findTestFilesIn join patterns) dir items []
  | _ => []
  end.

Definition findTestFiles (h : Host) (dir : jsstring) (patterns : list regex)
  : list jsstring :=
  findTestFilesIn (join h) patterns dir (entryAt h dir).

(* ------------------------------------------------------------------ *)
(** ** [analyzeTestFile] and [detectUselessTests] *)

Definition analyzeTestFile (h : Host) (filePath : jsstring)
  : completion (option SuspiciousTest) :=
  bind (readFileSync h filePath) (fun content =>
  Normal (analyze content filePath)).

Definition confidenceName (c : Confidence) : jsstring :=
  match c with
  | high => js "high"
  | medium => js "medium"
  | low => js "low"
  end.

(** [confidenceLevels[key]] for [{ high: 3, medium: 2, low: 1 }], as a
    number: [None] is NaN, which is what a comparison makes of [undefined]
    and of the members every object inherits. *)
Definition confidenceLevels (key : jsstring) : option Z :=
  if jsstring_eqb key (js "high") then Some 3%Z
  else if jsstring_eqb key (js "medium") then Some 2%Z
  else if jsstring_eqb key (js "low") then Some 1%Z
  else None.

(** [x >= y] on numbers; a comparison with NaN is false. *)
Definition geNumber (x y : option Z) : bool :=
  match x, y with
  | Some a, Some b => (b <=? a)%Z
  | _, _ => false
  end.

(** [x - y] on numbers. *)
Definition subNumber (x y : option Z) : option Z :=
  match x, y with
  | Some a, Some b => Some (a - b)%Z
  | _, _ => None
  end.

(** The comparator handed to [sort]. *)
Definition compareTests (a b : SuspiciousTest) : option Z :=
  let confidenceDiff :=
    subNumber (confidenceLevels (confidenceName (confidence b)))
              (confidenceLevels (confidenceName (confidence a))) in
  match confidenceDiff with
  | Some 0%Z => Some (Z.of_nat (lineCount b) - Z.of_nat (lineCount a))%Z
  | _ => confidenceDiff
  end.

(** [Array.prototype.sort] with a comparator: the sort is stable, and with a
    consistent comparator its result is the one stable ordering, computed
    here by insertion.  [a] goes before [b] unless the comparator answers a
    positive number (NaN counts as zero). *)
Section Sort.
Variable A : Type.
Variable comparator : A -> A -> option Z.

Definition notAfter (a b : A) : bool :=
  match comparator a b with
  | Some v => (v <=? 0)%Z
  | None => true
  end.

Fixpoint insert (a : A) (sorted : list A) : list A :=
  match sorted with
  | [] => [a]
  | b :: rest => if notAfter a b then a :: b :: rest else b :: insert a rest
  end.

Fixpoint sort (xs : list A) : list A :=
  match xs with
  | [] => []
  | a :: rest => insert a (sort rest)
  end.
End Sort.

Arguments notAfter {A} comparator a b.
Arguments insert {A} comparator a sorted.
Arguments sort {A} comparator xs.

(** The results that are not [null]. *)
Fixpoint notNull {A : Type} (xs : list (option A)) : list A :=
  match xs with
  | [] => []
  | Some x :: xs' => x :: notNull xs'
  | None :: xs' => notNull xs'
  end.

Definition orDefault {A : Type} (given : option A) (default : A) : A :=
  match given with
  | Some v => v
  | None => default
  end.

Definition detectUselessTests (h : Host) (options : DetectorOptions)
  : completion (list SuspiciousTest) :=
  let directories := orDefault (directories options) [js "src"; js "api"] in
  let minConfidence := orDefault (minConfidence options) (js "low") in
  let testPatterns := orDefault (testPatterns options) DEFAULT_TEST_PATTERNS in
  let allTestFiles :=
    flat_map (fun dir => findTestFiles h dir testPatterns) directories in
  bind (mapThrowing (analyzeTestFile h) allTestFiles) (fun analyzed =>
  let suspicious := notNull analyzed in
  let minLevel := confidenceLevels minConfidence in
  Normal
    (sort compareTests
       (filter
          (fun test =>
             geNumber (confidenceLevels (confidenceName (confidence test)))
                      minLevel)
          suspicious))).

(* ------------------------------------------------------------------ *)
(** ** Vocabulary of the statements *)

(** The seven anti-pattern conditions of a file, in the order of the source,
    and how many of them hold. *)
Definition triggered (content filePath : jsstring) : list bool :=
  [ antiPattern1 content; antiPattern2 content; antiPattern3 content;
    antiPattern4 content filePath; antiPattern5 content;
    antiPattern6 content; antiPattern7 content filePath ].

Definition triggeredCount (content filePath : jsstring) : nat :=
  List.length (filter (fun fired : bool => fired) (triggered content filePath)).

(** The threshold table of the confidence scorer, by reason count. *)
Definition verdictOfCount (count : nat) : option Confidence :=
  match count with
  | 0 => None
  | 1 => Some low
  | 2 => Some medium
  | _ => Some high
  end.

(** The rank of a confidence level in the report. *)
Definition rank (c : Confidence) : Z :=
  match c with
  | high => 3
  | medium => 2
  | low => 1
  end.

(** The paths [isIntegrationTest] is meant to recognise, spelled out: a
    separator, then [integration] or [e2e], then [.test.] and a script
    extension, at the end of the path. *)
Definition namedIntegrationTest (filePath : jsstring) : Prop :=
  exists dir sep stem ext,
    In sep [slash; backslash]
    /\ In stem [js "integration"; js "e2e"]
    /\ In ext [js "ts"; js "tsx"; js "js"; js "jsx"; js "mjs"; js "cjs"]
    /\ filePath = dir ++ sep :: stem ++ js ".test." ++ ext.

(** The text holds no network-call marker and no render call. *)
Definition noBoundaryCall (content : jsstring) : bool :=
  negb (includes content (js "fetch("))
  && negb (includes content (js "request("))
  && negb (includes content (js "axios."))
  && negb (includes content (js "supertest"))
  && negb (includes content (js "render(")).

(** The reason strings differ from one another in their first code unit,
    except those of anti-patterns 3 and 5. *)
Definition initial (r : jsstring) : N := hd 0%N r.

(** The paths [detectUselessTests] enumerates, in order. *)
Definition allTestFiles (h : Host) (options : DetectorOptions) : list jsstring :=
  flat_map
    (fun dir =>
       findTestFiles h dir (orDefault (testPatterns options) DEFAULT_TEST_PATTERNS))
    (orDefault (directories options) [js "src"; js "api"]).

(** The filter on the confidence level. *)
Definition atLeast (minLevel : option Z) (test : SuspiciousTest) : bool :=
  geNumber (confidenceLevels (confidenceName (confidence test))) minLevel.

(** The order of the comparator: a higher rank first, and for equal ranks
    the larger line count first. *)
Definition precedes (a b : SuspiciousTest) : Prop :=
  (rank (confidence b) < rank (confidence a))%Z
  \/ (confidence a = confidence b /\ (lineCount b <= lineCount a)%nat).

(* ------------------------------------------------------------------ *)
(** ** Directory trees *)

(** Induction on a directory tree, with the hypothesis for every item of a
    listing. *)
Section DirentInduction.
Variable P : dirent -> Prop.
Hypothesis P_Missing : P Missing.
Hypothesis P_File : P File.
Hypothesis P_unreadable : P (Directory None).
Hypothesis P_Directory :
  forall items, Forall (fun entry => P (snd entry)) items ->
                P (Directory (Some items)).

Fixpoint dirent_nested_ind (d : dirent) : P d :=
  match d with
  | Missing => P_Missing
  | File => P_File
  | Directory None => P_unreadable
  | Directory (Some items) =>
      P_Directory items
        ((fix all (l : list (jsstring * dirent))
            : Forall (fun entry => P (snd entry)) l :=
            match l with
            | [] => Forall_nil _
            | entry :: l' =>
                Forall_cons entry
                  (match entry return P (snd entry) with
                   | (_, sub) => dirent_nested_ind sub
                   end)
                  (all l')
            end) items)
  end.
End DirentInduction.

(** [within d names d']: following the item names [names] down from [d]
    leads to [d']. *)
Inductive within : dirent -> list jsstring -> dirent -> Prop :=
| within_here (d : dirent) : within d [] d
| within_item (items : list (jsstring * dirent)) (name : jsstring)
    (sub : dirent) (names : list jsstring) (d' : dirent) :
    In (name, sub) items ->
    within sub names d' ->
    within (Directory (Some items)) (name :: names) d'.

(** The tree with the listing of every excluded directory forgotten. *)
Fixpoint prune (d : dirent) : dirent :=
  match d with
  | Directory (Some items) =>
      Directory (Some
        (map (fun entry =>
                match entry with
                | (item, sub) =>
                    (item,
                     if isDirectory sub && excluded item then Directory None
                     else prune sub)
                end)
             items))
  | _ => d
  end.

Definition pruneEntry (entry : jsstring * dirent) : jsstring * dirent :=
  match entry with
  | (item, sub) =>
      (item,
       if isDirectory sub && excluded item then Directory None else prune sub)
  end.

(* ------------------------------------------------------------------ *)
(** ** A sample project *)

Definition optionsWith (dirs : option (list jsstring)) (level : jsstring)
  (patterns : option (list regex)) : DetectorOptions :=
  {| directories := dirs; minConfidence := Some level; testPatterns := patterns |}.

(** [path.join] on a directory path that is already normalised. *)
Definition joinPosix (dir item : jsstring) : jsstring := dir ++ js "/" ++ item.

Module Sample.

Definition cleanTest : jsstring := js "import { add } from '../add';
test('adds', () => { expect(add(1, 2)).toBe(3); });".

Definition typesTest : jsstring := js "interface Point { x: number }
test('point', () => {
  expect(origin.x).toBe(0);
});".

Definition placeholderTest : jsstring := js "interface Order { id: number }
// In a real test, this would call the API
test('order', () => { expect(order.id).toBe(7); });".

Definition parserTest : jsstring := js "interface Token { kind: number }
class MiniParser {}
// In a real test, this would be actual parsing
test('parses', () => {
  expect(tokens.length).toBe(2);
});".

Definition tree : dirent :=
  Directory (Some
    [ (js "clean.test.ts", File);
      (js "types.test.ts", File);
      (js "node_modules",
         Directory (Some [ (js "vendored.test.ts", File) ]));
      (js "orders",
         Directory (Some
           [ (js "placeholder.spec.ts", File);
             (js "parser.test.ts", File);
             (js "README.md", File) ])) ]).

Definition contentOf (filePath : jsstring) : completion jsstring :=
  if jsstring_eqb filePath (js "src/clean.test.ts") then Normal cleanTest
  else if jsstring_eqb filePath (js "src/types.test.ts") then Normal typesTest
  else if jsstring_eqb filePath (js "src/orders/placeholder.spec.ts")
  then Normal placeholderTest
  else if jsstring_eqb filePath (js "src/orders/parser.test.ts")
  then Normal parserTest
  else Throw (js "ENOENT").

(** [src] is the tree above and no other directory exists. *)
Definition host : Host :=
  {| join := joinPosix;
     entryAt := fun dir =>
       if jsstring_eqb dir (js "src") then tree else Directory None;
     readFileSync := contentOf |}.

(** The same project after [src/types.test.ts] was removed between the
    enumeration and the reading. *)
Definition vanished : Host :=
  {| join := joinPosix;
     entryAt := entryAt host;
     readFileSync := fun filePath =>
       if jsstring_eqb filePath (js "src/types.test.ts")
       then Throw (js "ENOENT")
       else contentOf filePath |}.

(** The same project with other packages installed. *)
Definition reinstalled : Host :=
  {| join := joinPosix;
     entryAt := fun dir =>
       if jsstring_eqb dir (js "src")
       then
         Directory (Some
           [ (js "clean.test.ts", File);
             (js "types.test.ts", File);
             (js "node_modules",
                Directory (Some
                  [ (js "other.test.ts", File);
                    (js "lib", Directory (Some [ (js "deep.spec.js", File) ])) ]));
             (js "orders",
                Directory (Some
                  [ (js "placeholder.spec.ts", File);
                    (js "parser.test.ts", File);
                    (js "README.md", File) ])) ])
       else Directory None;
     readFileSync := contentOf |}.

(** A caller that scans the build output. *)
Definition distHost : Host :=
  {| join := joinPosix;
     entryAt := fun dir =>
       if jsstring_eqb dir (js "dist")
       then Directory (Some [ (js "widget.test.js", File) ])
       else Directory None;
     readFileSync := fun _ => Throw (js "ENOENT") |}.

Definition defaults : DetectorOptions :=
  {| directories := None; minConfidence := None; testPatterns := None |}.

Definition withLevel (level : string) : DetectorOptions :=
  optionsWith None (js level) None.

End Sample.

(* ------------------------------------------------------------------ *)
(** ** More vocabulary: strings, trees and reports *)

(** [s.split(sep)] for a separator of one code unit. *)
Fixpoint split (sep : N) (s : jsstring) : list jsstring :=
  match s with
  | [] => [[]]
  | c :: s' =>
      if N.eqb c sep then [] :: split sep s'
      else match split sep s' with
           | [] => [[c]]
           | piece :: pieces => (c :: piece) :: pieces
           end
  end.

(** [pieces.join(sep)] *)
Fixpoint joinWith (sep : N) (pieces : list jsstring) : jsstring :=
  match pieces with
  | [] => []
  | [piece] => piece
  | piece :: pieces' => piece ++ sep :: joinWith sep pieces'
  end.

Definition comma : N := 44.
Definition lineFeed : N := 10.

(** [s.endsWith(w)] *)
Definition endsWith (s w : jsstring) : bool := startsWith (rev s) (rev w).


(** [readdirSync] throws on the path or finds it empty. *)
Definition nothingListed (d : dirent) : bool :=
  match d with
  | Directory (Some (_ :: _)) => false
  | _ => true
  end.

(** The seven reasons a file can get, in the order of the source. *)
Definition possibleReasons (content : jsstring) : list jsstring :=
  [ reason1 (List.length (inlineImplementations content)); reason2;
    reason3 (List.length (mockAssertions content)); reason4; reason5;
    reason6; reason7 ].

(** [sub] is [l] with some elements left out. *)
Inductive sublist {A : Type} : list A -> list A -> Prop :=
| sublist_nil : sublist [] []
| sublist_skip (x : A) (sub l : list A) : sublist sub l -> sublist sub (x :: l)
| sublist_keep (x : A) (sub l : list A) :
    sublist sub l -> sublist (x :: sub) (x :: l).

(** The options with the directories replaced. *)
Definition optionsFor (dirs : list jsstring) (options : DetectorOptions)
  : DetectorOptions :=
  {| directories := Some dirs;
     minConfidence := minConfidence options;
     testPatterns := testPatterns options |}.

(** Two records tie in the report order. *)
Definition sameKey (a b : SuspiciousTest) : bool :=
  (rank (confidence a) =? rank (confidence b))%Z
  && (lineCount a =? lineCount b)%nat.

(* ------------------------------------------------------------------ *)
(** ** The command line of [src/cli.ts] *)

(** What the loop over the arguments ends with: the help was asked for, or
    the settings of the scan. *)
Inductive parsed : Type :=
| ShowHelp
| Scan (directories : list jsstring) (minConfidence : jsstring)
       (jsonOutput : bool).

(** A string taken as a condition: the empty string counts as false. *)
Definition truthy (s : jsstring) : bool :=
  match s with
  | [] => false
  | _ :: _ => true
  end.

(** The loop over [args], from index [i] on, with the three variables it
    assigns.  [args[i + 1]] is undefined past the end, which counts as
    false; a flag that takes its value skips it. *)
Fixpoint parseArgs (args : list jsstring) (directories : list jsstring)
  (minConfidence : jsstring) (jsonOutput : bool) {struct args} : parsed :=
  match args with
  | [] => Scan directories minConfidence jsonOutput
  | arg :: rest =>
      let alone :=
        if jsstring_eqb arg (js "--json")
        then parseArgs rest directories minConfidence true
        else if jsstring_eqb arg (js "--help") || jsstring_eqb arg (js "-h")
        then ShowHelp
        else parseArgs rest directories minConfidence jsonOutput in
      match rest with
      | value :: rest' =>
          if jsstring_eqb arg (js "--dirs") && truthy value
          then parseArgs rest' (split comma value) minConfidence jsonOutput
          else if jsstring_eqb arg (js "--min-confidence") && truthy value
          then parseArgs rest' directories value jsonOutput
          else alone
      | [] => alone
      end
  end.

(** An argument that is none of the five flags. *)
Definition unknownArgument (arg : jsstring) : Prop :=
  ~ In arg [js "--dirs"; js "--min-confidence"; js "--json"; js "--help"; js "-h"].

(** The lines of a text, each followed by a line feed. *)
Definition unlines (lines : list string) : jsstring :=
  flat_map (fun line => js line ++ [lineFeed]) lines.

Definition helpText : jsstring :=
  lineFeed
  :: unlines
       [ "Useless Test Detector";
         "Finds test files that don't actually test real implementations.";
         "";
         "Usage:";
         "  useless-tests [options]";
         "";
         "Options:";
         "  --dirs <dirs>              Comma-separated directories to scan (default: src,api)";
         "  --min-confidence <level>   Minimum confidence level: high, medium, low (default: low)";
         "  --json                     Output results as JSON";
         "  --help, -h                 Show this help message";
         "";
         "Examples:";
         "  useless-tests";
         "  useless-tests --dirs src,tests --min-confidence high";
         "  useless-tests --json > report.json";
         "";
         "Exit codes:";
         "  0 - No suspicious tests found";
         "  1 - Suspicious tests found (check output)" ].

(** [s.toUpperCase()], for a text of ASCII letters such as the three
    confidence levels. *)
Definition toUpperCase (s : jsstring) : jsstring :=
  map (fun c => if ((97 <=? c) && (c <=? 122))%N then (c - 32)%N else c) s.

(** The icons, as UTF-16 code units. *)
Definition checkMark : jsstring := [9989%N].
Definition magnifier : jsstring := [55357%N; 56589%N].
Definition redCircle : jsstring := [55357%N; 56628%N].
Definition yellowCircle : jsstring := [55357%N; 57313%N].
Definition greenCircle : jsstring := [55357%N; 57314%N].
Definition lightBulb : jsstring := [55357%N; 56481%N].

Definition iconOf (c : Confidence) : jsstring :=
  match c with
  | high => redCircle
  | medium => yellowCircle
  | low => greenCircle
  end.

(** The calls of [console.log] for one record. *)
Definition reportBlock (test : SuspiciousTest) : list jsstring :=
  [ iconOf (confidence test) ++ js " " ++ file test;
    js "   Confidence: " ++ toUpperCase (confidenceName (confidence test))
    ++ js " | Lines: " ++ decimal (lineCount test);
    js "   Reasons:" ]
  ++ map (fun reason => js "     - " ++ reason) (reasons test)
  ++ [ [] ].

(** The calls of [console.log] of the text report for a report that is not
    empty. *)
Definition textReport (results : list SuspiciousTest) : list jsstring :=
  [ magnifier ++ js " Found " ++ decimal (List.length results)
    ++ js " suspicious test file(s):" ++ [lineFeed] ]
  ++ flat_map reportBlock results
  ++ [ lineFeed :: lightBulb ++ js " Recommendation:";
       js "   Review these files manually. High confidence files are likely useless.";
       js "   Delete files that don't import and test actual implementations."
       ++ [lineFeed] ].

(** How the process ends: it exits with a code after the given calls of
    [console.log], or an exception reaches the top level. *)
Inductive outcome : Type :=
| Exited (stdout : list jsstring) (code : nat)
| Uncaught (stdout : list jsstring) (error : jsstring).

(** The program of [cli.ts] on the arguments after the script name.
    [stringify] stands for [JSON.stringify(results, null, 2)]. *)
Definition cli (h : Host) (stringify : list SuspiciousTest -> jsstring)
  (args : list jsstring) : outcome :=
  match parseArgs args [js "src"; js "api"] (js "low") false with
  | ShowHelp => Exited [helpText] 0
  | Scan directories minConfidence jsonOutput =>
      match
        detectUselessTests h
          {| directories := Some directories;
             minConfidence := Some minConfidence;
             testPatterns := None |}
      with
      | Throw e => Uncaught [] e
      | Normal results =>
          let code := if (0 <? List.length results)%nat then 1%nat else 0%nat in
          if jsonOutput then Exited [stringify results] code
          else if (List.length results =? 0)%nat
          then Exited [checkMark ++ js " No obviously useless tests detected!"] 0
          else Exited (textReport results) code
      end
  end.

(* ------------------------------------------------------------------ *)
(** ** The confidence scorer *)

Lemma pushIf_length (c : bool) (r : jsstring) (rs : list jsstring) :
  List.length (pushIf c r rs) = (List.length rs + (if c then 1 else 0))%nat.
Proof.
  destruct c; simpl.
  - now rewrite length_app.
  - lia.
Qed.

Lemma collectReasons_length (content filePath : jsstring) :
  List.length (collectReasons content filePath) = triggeredCount content filePath.
Proof.
  unfold collectReasons, triggeredCount, triggered.
  rewrite !pushIf_length. simpl.
  destruct (antiPattern1 content), (antiPattern2 content),
    (antiPattern3 content), (antiPattern4 content filePath),
    (antiPattern5 content), (antiPattern6 content),
    (antiPattern7 content filePath); reflexivity.
Qed.

Lemma analyze_by_count (content filePath : jsstring) :
  analyze content filePath =
    match verdictOfCount (triggeredCount content filePath) with
    | None => None
    | Some c =>
        Some {| file := filePath;
                reasons := collectReasons content filePath;
                confidence := c;
                lineCount := List.length (split_lines content) |}
    end.
Proof.
  unfold analyze. rewrite collectReasons_length.
  destruct (triggeredCount content filePath) as [|[|[|n]]]; reflexivity.
Qed.

(** C1.  The verdict of a file is decided by the number of anti-patterns
    that fired and by nothing else: that number is the length of the reason
    list, and [analyzeTestFile], once the file is read, answers [null] for
    0, low for 1, medium for 2 and high for 3 or more, whatever the file and
    whichever anti-patterns they were. *)
Theorem C1_confidence_by_count (h : Host) (filePath : jsstring) :
  (forall content,
     List.length (collectReasons content filePath)
     = triggeredCount content filePath)
  /\ analyzeTestFile h filePath =
       bind (readFileSync h filePath) (fun content =>
       Normal
         match verdictOfCount (triggeredCount content filePath) with
         | None => None
         | Some c =>
             Some {| file := filePath;
                     reasons := collectReasons content filePath;
                     confidence := c;
                     lineCount := List.length (split_lines content) |}
         end).
Proof.
  split.
  - intros content. apply collectReasons_length.
  - unfold analyzeTestFile.
    destruct (readFileSync h filePath) as [content|e]; simpl; [|reflexivity].
    now rewrite analyze_by_count.
Qed.

(* ------------------------------------------------------------------ *)
(** ** Which reason comes from which anti-pattern *)

Lemma In_pushIf (r r' : jsstring) (c : bool) (rs : list jsstring) :
  In r (pushIf c r' rs) -> (c = true /\ r' = r) \/ In r rs.
Proof.
  destruct c; simpl; intros H; [|now right].
  apply in_app_or in H. destruct H as [H|[H|[]]]; auto.
Qed.

Lemma pushIf_In (r : jsstring) (rs : list jsstring) :
  In r (pushIf true r rs).
Proof. simpl. apply in_or_app. right. now left. Qed.

Lemma pushIf_keeps (r r' : jsstring) (c : bool) (rs : list jsstring) :
  In r rs -> In r (pushIf c r' rs).
Proof. destruct c; simpl; auto. intros H. apply in_or_app. now left. Qed.

Ltac reason_origin H :=
  repeat (apply In_pushIf in H;
          destruct H as [[? H]|H];
          [ try (apply (f_equal initial) in H; discriminate H) | ]);
  try contradiction.

Lemma reason4_origin (content filePath : jsstring) :
  In reason4 (collectReasons content filePath) ->
  antiPattern4 content filePath = true.
Proof.
  unfold collectReasons. intros H. reason_origin H. assumption.
Qed.

Lemma reason7_origin (content filePath : jsstring) :
  In reason7 (collectReasons content filePath) ->
  antiPattern7 content filePath = true.
Proof.
  unfold collectReasons. intros H. reason_origin H. assumption.
Qed.

Lemma reason4_pushed (content filePath : jsstring) :
  antiPattern4 content filePath = true ->
  In reason4 (collectReasons content filePath).
Proof.
  unfold collectReasons. intros ->.
  do 3 apply pushIf_keeps. apply pushIf_In.
Qed.

Lemma reason7_pushed (content filePath : jsstring) :
  antiPattern7 content filePath = true ->
  In reason7 (collectReasons content filePath).
Proof.
  unfold collectReasons. intros ->. apply pushIf_In.
Qed.

Lemma analyze_reasons (content filePath : jsstring) (t : SuspiciousTest) :
  analyze content filePath = Some t ->
  file t = filePath /\ reasons t = collectReasons content filePath.
Proof.
  unfold analyze.
  destruct (List.length (collectReasons content filePath) =? 0)%nat;
    [discriminate|].
  intros H. injection H as <-. now split.
Qed.

(** C10.  Anti-pattern 4 asks that the path is not that of an integration
    test and anti-pattern 7 asks that it is, so the two never fire on one
    file, and no reason list holds both of their reason strings. *)
Theorem C10_no_import_and_fake_integration_exclusive
  (content filePath : jsstring) :
  antiPattern4 content filePath && antiPattern7 content filePath = false
  /\ ~ (In reason4 (collectReasons content filePath)
        /\ In reason7 (collectReasons content filePath))
  /\ forall t, analyze content filePath = Some t ->
               ~ (In reason4 (reasons t) /\ In reason7 (reasons t)).
Proof.
  assert (E : antiPattern4 content filePath && antiPattern7 content filePath
              = false).
  { unfold antiPattern4, antiPattern7.
    destruct (isIntegrationTest filePath); simpl.
    - now rewrite andb_false_r.
    - now rewrite andb_false_r. }
  assert (R : ~ (In reason4 (collectReasons content filePath)
                 /\ In reason7 (collectReasons content filePath))).
  { intros [H4 H7].
    apply reason4_origin in H4. apply reason7_origin in H7.
    rewrite H4, H7 in E. discriminate E. }
  repeat split; auto.
  intros t Ht. apply analyze_reasons in Ht. destruct Ht as [_ ->]. exact R.
Qed.

(* ------------------------------------------------------------------ *)
(** ** Facts about the matcher *)

(** The result of the matcher depends on the continuation only through
    its values. *)
Lemma run_ext (r : regex) :
  forall k1 k2 : continuation,
    (forall b a, k1 b a = k2 b a) ->
    forall b a, run r k1 b a = run r k2 b a.
Proof.
  induction r as [|p|r1 IH1 r2 IH2|r1 IH1 r2 IH2|r IH| | |w];
    intros k1 k2 H b a; simpl.
  - apply H.
  - destruct a as [|c a]; [reflexivity|]. destruct (p c); [apply H|reflexivity].
  - apply IH1. intros b' a'. now apply IH2.
  - rewrite (IH1 k1 k2 H). destruct (run r1 k2 b a); [reflexivity|].
    now apply IH2.
  - generalize (List.length a) as n. intros n. revert b a.
    induction n as [|n IHn]; intros b a; simpl; [apply H|].
    rewrite (IH _ (fun b' a' =>
                     if (List.length a' <? List.length a)%nat
                     then iterate (run r) k2 n b' a' else None)).
    + destruct (run r _ b a); [reflexivity|apply H].
    + intros b' a'. destruct (List.length a' <? List.length a)%nat;
        [apply IHn|reflexivity].
  - destruct b as [|c b]; [apply H|].
    destruct (isLineTerminator c); [apply H|reflexivity].
  - destruct a; [apply H|reflexivity].
  - destruct (startsWith b (rev w)); [reflexivity|apply H].
Qed.

Lemma run_fail (r : regex) (b a : jsstring) :
  run r (fun _ _ => None) b a = None.
Proof.
  revert b a.
  induction r as [|p|r1 IH1 r2 IH2|r1 IH1 r2 IH2|r IH| | |w];
    intros b a; simpl; try reflexivity.
  - destruct a as [|c a]; [reflexivity|]. now destruct (p c).
  - rewrite (run_ext r1 (run r2 (fun _ _ => None)) (fun _ _ => None));
      [apply IH1|]. intros b' a'. apply IH2.
  - now rewrite IH1, IH2.
  - generalize (List.length a) as n. intros n. revert b a.
    induction n as [|n IHn]; intros b a; simpl; [reflexivity|].
    rewrite (run_ext r _ (fun _ _ => None)); [now rewrite IH|].
    intros b' a'. destruct (List.length a' <? List.length a)%nat;
      [apply IHn|reflexivity].
  - destruct b as [|c b]; [reflexivity|]. now destruct (isLineTerminator c).
  - now destruct a.
  - now destruct (startsWith b (rev w)).
Qed.

(** The count of iterations never runs out: any count that is at least the
    number of code units left gives the same result. *)
Lemma iterate_enough (r : regex) (k : continuation) (n m : nat) :
  forall b a,
    (List.length a <= n)%nat -> (List.length a <= m)%nat ->
    iterate (run r) k n b a = iterate (run r) k m b a.
Proof.
  revert m. induction n as [|n IHn]; intros [|m] b a Hn Hm; simpl.
  - reflexivity.
  - rewrite (run_ext r _ (fun _ _ => None)); [now rewrite run_fail|].
    intros b' a'.
    destruct (Nat.ltb_spec (List.length a') (List.length a));
      [lia|reflexivity].
  - rewrite (run_ext r _ (fun _ _ => None)); [now rewrite run_fail|].
    intros b' a'.
    destruct (Nat.ltb_spec (List.length a') (List.length a));
      [lia|reflexivity].
  - rewrite (run_ext r _
               (fun b' a' =>
                  if (List.length a' <? List.length a)%nat
                  then iterate (run r) k m b' a' else None));
      [reflexivity|].
    intros b' a'.
    destruct (Nat.ltb_spec (List.length a') (List.length a));
      [|reflexivity].
    apply IHn; lia.
Qed.

(** The matcher only moves forward: the continuation is called at positions
    that leave no more code units than the starting one. *)
Lemma run_forward (r : regex) (P : position -> Prop) (n : nat) :
  forall (k : continuation) b a e,
    (List.length a <= n)%nat ->
    (forall b' a' e', (List.length a' <= n)%nat -> k b' a' = Some e' -> P e') ->
    run r k b a = Some e -> P e.
Proof.
  induction r as [|p|r1 IH1 r2 IH2|r1 IH1 r2 IH2|r IH| | |w];
    intros k b a e Ha Hk; simpl.
  - now apply Hk.
  - destruct a as [|c a]; [discriminate|].
    destruct (p c); [|discriminate]. apply Hk. simpl in Ha. lia.
  - apply IH1; [exact Ha|]. intros b' a' e' Ha'. now apply IH2.
  - destruct (run r1 k b a) eqn:E.
    + intros H. injection H as <-. now apply (IH1 k b a).
    + now apply IH2.
  - generalize (List.length a) as m. intros m. revert b a e Ha.
    induction m as [|m IHm]; intros b a e Ha; simpl; [now apply Hk|].
    destruct (run r _ b a) eqn:E.
    + intros H. injection H as <-. revert E. apply IH; [exact Ha|].
      intros b' a' e' Ha'.
      destruct (List.length a' <? List.length a)%nat; [|discriminate].
      now apply IHm.
    + now apply Hk.
  - destruct b as [|c b]; [now apply Hk|].
    destruct (isLineTerminator c); [now apply Hk|discriminate].
  - destruct a; [now apply Hk|discriminate].
  - destruct (startsWith b (rev w)); [discriminate|now apply Hk].
Qed.

Lemma exec_forward (r : regex) (a b : jsstring) (start finish : position) :
  exec r b a = Some (start, finish) ->
  (List.length (snd finish) <= List.length (snd start))%nat
  /\ (List.length (snd start) <= List.length a)%nat.
Proof.
  revert b. induction a as [|c a IH]; intros b; simpl.
  - destruct (run r accept b []) eqn:E; [|discriminate].
    intros H. injection H as <- <-. split; [|reflexivity].
    apply (run_forward r (fun e => (List.length (snd e) <= 0)%nat) 0
             accept b [] p); [simpl; lia| |exact E].
    intros b' a' e' Ha' He. injection He as <-. exact Ha'.
  - destruct (run r accept b (c :: a)) eqn:E.
    + intros H. injection H as <- <-. split; [|reflexivity].
      apply (run_forward r
               (fun e => (List.length (snd e) <= S (List.length a))%nat)
               (S (List.length a)) accept b (c :: a) p);
        [simpl; lia| |exact E].
      intros b' a' e' Ha' He. injection He as <-. exact Ha'.
    + intros H. apply IH in H. simpl. lia.
Qed.

(** The fuel of [matchAll] never runs out either. *)
Lemma matchesFrom_enough (r : regex) (n m : nat) :
  forall b a,
    (List.length a < n)%nat -> (List.length a < m)%nat ->
    matchesFrom n r b a = matchesFrom m r b a.
Proof.
  revert m. induction n as [|n IHn]; intros [|m] b a Hn Hm; try lia.
  simpl. destruct (exec r b a) as [[[b0 a0] [b1 a1]]|] eqn:E; [|reflexivity].
  apply exec_forward in E. simpl in E.
  destruct (Nat.ltb_spec (List.length a1) (List.length a0)).
  - f_equal. apply IHn; lia.
  - destruct a1 as [|c a1]; [reflexivity|].
    f_equal. simpl in *. apply IHn; lia.
Qed.

Lemma run_lit (w : jsstring) (k : continuation) (b a : jsstring) :
  run (lit w) k b a =
    if startsWith a w then k (rev w ++ b) (skipn (List.length w) a) else None.
Proof.
  revert b a. induction w as [|c w IH]; intros b a; simpl.
  - reflexivity.
  - destruct a as [|d a]; [reflexivity|].
    destruct (N.eqb_spec c d) as [->|Hcd]; simpl; [|reflexivity].
    rewrite IH. now rewrite <- app_assoc.
Qed.

(** A search finds nothing exactly when the pattern fails at every
    position. *)
Lemma exec_None (r : regex) (a b : jsstring) :
  exec r b a = None <->
  forall pre rest, a = pre ++ rest -> run r accept (rev pre ++ b) rest = None.
Proof.
  revert b. induction a as [|c a IH]; intros b; simpl.
  - destruct (run r accept b []) eqn:E.
    + split; [discriminate|]. intros H.
      specialize (H [] [] eq_refl). simpl in H. congruence.
    + split; [|reflexivity]. intros _ pre rest H.
      symmetry in H. apply app_eq_nil in H. destruct H as [-> ->]. exact E.
  - destruct (run r accept b (c :: a)) eqn:E.
    + split; [discriminate|]. intros H.
      specialize (H [] (c :: a) eq_refl). simpl in H. congruence.
    + rewrite IH. split; intros H pre rest Hs.
      * destruct pre as [|c' pre]; simpl in Hs.
        -- subst rest. exact E.
        -- injection Hs as <- ->. simpl. rewrite <- app_assoc. simpl.
           now apply H.
      * specialize (H (c :: pre) rest). simpl in H.
        rewrite <- app_assoc in H. simpl in H. apply H. now rewrite Hs.
Qed.

Lemma test_false (r : regex) (s : jsstring) :
  (forall pre rest, s = pre ++ rest -> run r accept (rev pre) rest = None) ->
  test r s = false.
Proof.
  intros H. unfold test.
  destruct (exec r [] s) eqn:E; [|reflexivity].
  assert (N : exec r [] s = None).
  { apply exec_None. intros pre rest Hs. rewrite app_nil_r. now apply H. }
  congruence.
Qed.

Lemma test_true (r : regex) (pre rest : jsstring) :
  run r accept (rev pre) rest <> None -> test r (pre ++ rest) = true.
Proof.
  intros H. unfold test.
  destruct (exec r [] (pre ++ rest)) eqn:E; [reflexivity|].
  exfalso. apply H.
  rewrite exec_None in E. specialize (E pre rest eq_refl).
  now rewrite app_nil_r in E.
Qed.

Lemma includes_false (s w : jsstring) :
  includes s w = false ->
  forall pre rest, s = pre ++ rest -> startsWith rest w = false.
Proof.
  induction s as [|c s IH]; simpl; intros H pre rest Hs.
  - symmetry in Hs. apply app_eq_nil in Hs. destruct Hs as [_ ->].
    now apply orb_false_elim in H.
  - apply orb_false_elim in H. destruct H as [H1 H2].
    destruct pre as [|c' pre]; simpl in Hs.
    + now subst rest.
    + injection Hs as _ Hs. now apply (IH H2 pre).
Qed.

(** A pattern that is an alternative of literal texts finds nothing in a
    string that includes none of them. *)
Lemma hasFetch_false (content : jsstring) :
  includes content (js "fetch(") = false ->
  includes content (js "request(") = false ->
  includes content (js "axios.") = false ->
  includes content (js "supertest") = false ->
  hasFetch content = false.
Proof.
  intros H1 H2 H3 H4. apply test_false. intros pre rest Hs.
  unfold words. cbn [map alts run]. unfold word. rewrite !run_lit.
  rewrite (includes_false _ _ H1 _ _ Hs), (includes_false _ _ H2 _ _ Hs),
    (includes_false _ _ H3 _ _ Hs), (includes_false _ _ H4 _ _ Hs).
  reflexivity.
Qed.

Lemma hasRender_false (content : jsstring) :
  includes content (js "render(") = false -> hasRender content = false.
Proof.
  intros H. apply test_false. intros pre rest Hs.
  unfold word. rewrite run_lit.
  now rewrite (includes_false _ _ H _ _ Hs).
Qed.

(* ------------------------------------------------------------------ *)
(** ** Anti-pattern 7: which paths are integration tests *)

(** A path is recognised when a separator comes right before
    [integration] or [e2e]: the file is named [integration.test.ts],
    [e2e.test.js] and the like. *)
Lemma isIntegrationTest_named (dir : jsstring) (sep : N) (stem ext : jsstring) :
  In sep [slash; backslash] ->
  In stem [js "integration"; js "e2e"] ->
  In ext [js "ts"; js "tsx"; js "js"; js "jsx"; js "mjs"; js "cjs"] ->
  isIntegrationTest (dir ++ sep :: stem ++ js ".test." ++ ext) = true.
Proof.
  intros Hsep Hstem Hext. unfold isIntegrationTest. apply test_true.
  simpl in Hsep, Hstem, Hext.
  repeat match goal with
         | H : _ \/ _ |- _ => destruct H as [H|H]
         | H : False |- _ => destruct H
         end;
    subst; vm_compute; discriminate.
Qed.

(** C3, counterexample.  [src/checkout.integration.test.ts] holds no fetch,
    request, http-client or render call, and yet anti-pattern 7 does not
    fire: the path is not recognised as an integration test, and the file
    gets no reason at all. *)
Lemma C3_checkout_not_recognised :
  let filePath := js "src/checkout.integration.test.ts" in
  let content := js "test('total', () => { expect(total(cart)).toBe(42); });" in
  hasFetch content = false
  /\ hasRender content = false
  /\ isIntegrationTest filePath = false
  /\ antiPattern7 content filePath = false
  /\ ~ In reason7 (collectReasons content filePath)
  /\ analyze content filePath = None.
Proof.
  vm_compute. repeat split; auto.
Qed.

Lemma startsWith_app (a w : jsstring) :
  startsWith a w = true -> a = w ++ skipn (List.length w) a.
Proof.
  revert a. induction w as [|c w IH]; intros a H; simpl in *.
  - reflexivity.
  - destruct a as [|d a]; [discriminate|].
    apply andb_prop in H. destruct H as [Hc Hw].
    apply N.eqb_eq in Hc. subst d. f_equal. now apply IH.
Qed.

Lemma run_lit_Some (w : jsstring) (k : continuation) (b a : jsstring)
  (e : position) :
  run (lit w) k b a = Some e ->
  exists rest, a = w ++ rest /\ k (rev w ++ b) rest = Some e.
Proof.
  rewrite run_lit. destruct (startsWith a w) eqn:E; [|discriminate].
  intros H. exists (skipn (List.length w) a). split; [|exact H].
  now apply startsWith_app.
Qed.

Lemma run_Alt_Some (r1 r2 : regex) (k : continuation) (b a : jsstring)
  (e : position) :
  run (Alt r1 r2) k b a = Some e ->
  run r1 k b a = Some e \/ run r2 k b a = Some e.
Proof.
  simpl. destruct (run r1 k b a); auto.
Qed.

(** A successful search starts somewhere. *)
Lemma exec_Some (r : regex) (a b : jsstring) (found : position * position) :
  exec r b a = Some found ->
  exists pre rest,
    a = pre ++ rest /\ run r accept (rev pre ++ b) rest = Some (snd found).
Proof.
  revert b. induction a as [|c a IH]; intros b; simpl.
  - destruct (run r accept b []) eqn:E; [|discriminate].
    intros H. injection H as <-. now exists [], [].
  - destruct (run r accept b (c :: a)) eqn:E.
    + intros H. injection H as <-. now exists [], (c :: a).
    + intros H. apply IH in H. destruct H as (pre & rest & -> & H).
      exists (c :: pre), rest. split; [reflexivity|].
      simpl. now rewrite <- app_assoc.
Qed.

Lemma includes_true (s w : jsstring) :
  includes s w = true ->
  exists pre rest, s = pre ++ rest /\ startsWith rest w = true.
Proof.
  induction s as [|c s IH]; simpl; intros H.
  - rewrite orb_false_r in H. now exists [], [].
  - apply orb_prop in H. destruct H as [H|H].
    + now exists [], (c :: s).
    + destruct (IH H) as (pre & rest & -> & Hw). now exists (c :: pre), rest.
Qed.

(** The pattern of [isIntegrationTest] matches at a position only when the
    rest of the path is a separator and one of the twelve file names. *)
Lemma isIntegrationTest_shape (b a : jsstring) (e : position) :
  run (seqs [Char (isAnyOf [slash; backslash]); words ["integration"; "e2e"];
             word ".test."; extensions; InputEnd]) accept b a = Some e ->
  exists sep stem ext,
    In sep [slash; backslash]
    /\ In stem [js "integration"; js "e2e"]
    /\ In ext [js "ts"; js "tsx"; js "js"; js "jsx"; js "mjs"; js "cjs"]
    /\ a = sep :: stem ++ js ".test." ++ ext.
Proof.
  cbv [seqs words word alts map extensions]. cbn [run].
  destruct a as [|sep a]; [discriminate|].
  destruct (isAnyOf [slash; backslash] sep) eqn:Hsep; [|discriminate].
  assert (Sep : In sep [slash; backslash]).
  { unfold isAnyOf in Hsep. simpl in Hsep.
    rewrite orb_false_r in Hsep. apply orb_prop in Hsep.
    destruct Hsep as [H|H]; apply N.eqb_eq in H; subst; simpl; auto. }
  intros H.
  assert (Tail : forall stem b' a',
             run (lit (js ".test."))
               (fun b0 a0 =>
                  match run (lit (js "ts")) (run InputEnd accept) b0 a0 with
                  | Some e0 => Some e0
                  | None =>
                  match run (lit (js "tsx")) (run InputEnd accept) b0 a0 with
                  | Some e0 => Some e0
                  | None =>
                  match run (lit (js "js")) (run InputEnd accept) b0 a0 with
                  | Some e0 => Some e0
                  | None =>
                  match run (lit (js "jsx")) (run InputEnd accept) b0 a0 with
                  | Some e0 => Some e0
                  | None =>
                  match run (lit (js "mjs")) (run InputEnd accept) b0 a0 with
                  | Some e0 => Some e0
                  | None => run (lit (js "cjs")) (run InputEnd accept) b0 a0
                  end end end end end) b' a' = Some e ->
             exists ext,
               In ext [js "ts"; js "tsx"; js "js"; js "jsx"; js "mjs"; js "cjs"]
               /\ stem ++ a' = stem ++ js ".test." ++ ext).
  { intros stem b' a' Ht. apply run_lit_Some in Ht.
    destruct Ht as (rest & -> & Ht).
    assert (End : forall w b0, run (lit w) (run InputEnd accept) b0 rest = Some e ->
                               rest = w).
    { intros w b0 Hw. apply run_lit_Some in Hw.
      destruct Hw as (rest' & -> & Hw). simpl in Hw.
      destruct rest'; [now rewrite app_nil_r|discriminate]. }
    repeat match type of Ht with
           | match ?scrutinee with _ => _ end = Some _ =>
               destruct scrutinee eqn:?; [injection Ht as ->|]
           end;
      match goal with
      | Hw : run (lit ?w) _ _ rest = Some e |- _ =>
          exists w; split; [simpl; tauto|]; now rewrite (End _ _ Hw)
      end. }
  destruct (run (lit (js "integration")) _ (sep :: b) a) eqn:E1.
  - injection H as ->. apply run_lit_Some in E1.
    destruct E1 as (rest & -> & E1).
    destruct (Tail (js "integration") _ _ E1) as (ext & Hext & Heq).
    exists sep, (js "integration"), ext. repeat split; auto.
    + simpl. auto.
    + now rewrite Heq.
  - apply run_lit_Some in H. destruct H as (rest & -> & H).
    destruct (Tail (js "e2e") _ _ H) as (ext & Hext & Heq).
    exists sep, (js "e2e"), ext. repeat split; auto.
    + simpl. auto.
    + now rewrite Heq.
Qed.

Lemma isIntegrationTest_iff (filePath : jsstring) :
  isIntegrationTest filePath = true <-> namedIntegrationTest filePath.
Proof.
  split.
  - unfold isIntegrationTest, test. intros H.
    match type of H with
    | match ?x with _ => _ end = true => destruct x as [found|] eqn:E
    end; [|discriminate].
    apply exec_Some in E. destruct E as (pre & rest & -> & E).
    apply isIntegrationTest_shape in E.
    destruct E as (sep & stem & ext & Hsep & Hstem & Hext & ->).
    now exists pre, sep, stem, ext.
  - intros (dir & sep & stem & ext & Hsep & Hstem & Hext & ->).
    now apply isIntegrationTest_named.
Qed.

Lemma hasFetch_true (content w : jsstring) :
  In w [js "fetch("; js "request("; js "axios."; js "supertest"] ->
  includes content w = true -> hasFetch content = true.
Proof.
  intros Hw H. apply includes_true in H. destruct H as (pre & rest & -> & H).
  apply test_true. unfold words. cbn [map alts run]. unfold word.
  rewrite !run_lit.
  simpl in Hw. destruct Hw as [<-|[<-|[<-|[<-|[]]]]]; rewrite H;
    repeat match goal with
           | |- context [startsWith rest ?w] => destruct (startsWith rest w)
           end;
    discriminate.
Qed.

Lemma hasRender_true (content : jsstring) :
  includes content (js "render(") = true -> hasRender content = true.
Proof.
  intros H. apply includes_true in H. destruct H as (pre & rest & -> & H).
  apply test_true. unfold word. rewrite run_lit, H. discriminate.
Qed.

Lemma noBoundaryCall_iff (content : jsstring) :
  noBoundaryCall content = true
  <-> negb (hasFetch content) && negb (hasRender content) = true.
Proof.
  unfold noBoundaryCall. split; intros H.
  - repeat (apply andb_prop in H; destruct H as [H ?]).
    repeat match goal with
           | H : negb _ = true |- _ => apply negb_true_iff in H
           end.
    rewrite hasFetch_false, hasRender_false; auto.
  - apply andb_prop in H. destruct H as [Hf Hr].
    apply negb_true_iff in Hf, Hr.
    destruct (includes content (js "fetch(")) eqn:E1;
      [rewrite (hasFetch_true content (js "fetch(")) in Hf;
       [discriminate|simpl; tauto|exact E1]|].
    destruct (includes content (js "request(")) eqn:E2;
      [rewrite (hasFetch_true content (js "request(")) in Hf;
       [discriminate|simpl; tauto|exact E2]|].
    destruct (includes content (js "axios.")) eqn:E3;
      [rewrite (hasFetch_true content (js "axios.")) in Hf;
       [discriminate|simpl; tauto|exact E3]|].
    destruct (includes content (js "supertest")) eqn:E4;
      [rewrite (hasFetch_true content (js "supertest")) in Hf;
       [discriminate|simpl; tauto|exact E4]|].
    destruct (includes content (js "render(")) eqn:E5;
      [rewrite (hasRender_true content E5) in Hr; discriminate|].
    reflexivity.
Qed.

(** No path that ends in [checkout.integration.test.ts] is that of an
    integration test: a dot, not a separator, comes before
    [integration]. *)
Lemma checkout_not_named (dir : jsstring) :
  ~ namedIntegrationTest (dir ++ js "checkout.integration.test.ts").
Proof.
  intros (dir' & sep & stem & ext & Hsep & Hstem & Hext & H).
  apply (f_equal (@rev N)) in H.
  rewrite rev_app_distr in H.
  replace (dir' ++ sep :: stem ++ js ".test." ++ ext)
    with ((dir' ++ [sep]) ++ stem ++ js ".test." ++ ext) in H
    by now rewrite <- app_assoc.
  rewrite !rev_app_distr in H. rewrite <- !app_assoc in H.
  simpl in Hsep, Hstem, Hext.
  repeat match goal with
         | H : _ \/ _ |- _ => destruct H as [H|H]
         | H : False |- _ => destruct H
         end;
    subst; simpl in H; try discriminate H;
    repeat (injection H as ? H); discriminate.
Qed.

(** C3, as the code has it.  Anti-pattern 7 fires exactly on the files
    that are named [integration.test.ts] or [e2e.test.ts] (or with another
    of the script extensions), in any directory, and whose text includes
    none of [fetch(], [request(], [axios.], [supertest] and [render(].  Such
    a file gets a record whose reasons hold that of anti-pattern 7, and
    when no other anti-pattern fires that is its only reason and its
    confidence is low.  On a path that ends in
    [checkout.integration.test.ts] anti-pattern 7 never fires. *)
Theorem C3_fake_integration_test (content filePath : jsstring) :
  (antiPattern7 content filePath = true
   <-> namedIntegrationTest filePath /\ noBoundaryCall content = true)
  /\ (antiPattern7 content filePath = true ->
      exists t, analyze content filePath = Some t
                /\ In reason7 (reasons t)
                /\ (1 <= List.length (reasons t))%nat)
  /\ (antiPattern7 content filePath = true ->
      antiPattern1 content = false ->
      antiPattern2 content = false ->
      antiPattern3 content = false ->
      antiPattern4 content filePath = false ->
      antiPattern5 content = false ->
      antiPattern6 content = false ->
      analyze content filePath =
        Some {| file := filePath;
                reasons := [reason7];
                confidence := low;
                lineCount := List.length (split_lines content) |})
  /\ (forall dir,
        antiPattern7 content (dir ++ js "checkout.integration.test.ts") = false).
Proof.
  assert (Iff : forall p,
             antiPattern7 content p = true
             <-> namedIntegrationTest p /\ noBoundaryCall content = true).
  { intros p. unfold antiPattern7.
    rewrite andb_true_iff, isIntegrationTest_iff, noBoundaryCall_iff.
    reflexivity. }
  split; [apply Iff|]. split; [|split].
  - intros H7.
    pose proof (reason7_pushed content filePath H7) as Hin.
    destruct (analyze content filePath) as [t|] eqn:E.
    + exists t. destruct (analyze_reasons content filePath t E) as [_ Hrs].
      rewrite Hrs. repeat split; auto.
      destruct (collectReasons content filePath); [destruct Hin|simpl; lia].
    + exfalso. unfold analyze in E.
      destruct (collectReasons content filePath); [destruct Hin|].
      discriminate E.
  - intros H7 H1 H2 H3 H4 H5 H6.
    unfold analyze, collectReasons. rewrite H1, H2, H3, H4, H5, H6, H7.
    reflexivity.
  - intros dir.
    destruct (antiPattern7 content (dir ++ js "checkout.integration.test.ts"))
      eqn:E; [|reflexivity].
    apply Iff in E. destruct E as [E _]. now apply checkout_not_named in E.
Qed.

(** The theorem at [src/checkout/integration.test.ts]. *)
Lemma C3_fake_integration_test_witness :
  let content := js "test('total', () => { expect(total(cart)).toBe(42); });" in
  let filePath := js "src/checkout/integration.test.ts" in
  antiPattern7 content filePath = true
  /\ analyze content filePath =
       Some {| file := filePath;
               reasons := [reason7];
               confidence := low;
               lineCount := 1 |}.
Proof.
  destruct
    (C3_fake_integration_test
       (js "test('total', () => { expect(total(cart)).toBe(42); });")
       (js "src/checkout/integration.test.ts"))
    as (Hiff & _ & Hlow & _).
  assert (H7 : antiPattern7
                 (js "test('total', () => { expect(total(cart)).toBe(42); });")
                 (js "src/checkout/integration.test.ts") = true).
  { apply Hiff. split; [|reflexivity].
    exists (js "src/checkout"), slash, (js "integration"), (js "ts").
    simpl. repeat split; auto. }
  split; [exact H7|].
  apply Hlow; [exact H7| | | | | |]; reflexivity.
Defined.

(* ------------------------------------------------------------------ *)
(** ** Anti-pattern 4: which imports count as source imports *)

(** C4, at a failing input.  A test that imports the module beside it,
    [./Button], and a testing library is given the reason of anti-pattern 4:
    the pattern for source imports asks for two dots after the quote, so an
    import from the file's own directory is not seen. *)
Theorem C4_sibling_import_flagged :
  let filePath := js "src/Button.test.tsx" in
  let content := js "import { render } from '@testing-library/react';
import { Button } from './Button';
test('renders', () => { render(Button()); });" in
  includes content (js "from './Button'") = true
  /\ hasSourceImports content = false
  /\ antiPattern4 content filePath = true
  /\ analyze content filePath =
       Some {| file := filePath;
               reasons := [reason4];
               confidence := low;
               lineCount := 3 |}.
Proof.
  vm_compute. repeat split; reflexivity.
Qed.

(** More generally, no import is taken for a source import unless two dots
    follow the quote: a test whose text holds no [..] at all and that names
    a testing library is always given the reason of anti-pattern 4, whatever
    it imports from its own directory. *)
Lemma hasSourceImports_needs_two_dots (content : jsstring) :
  includes content (js "..") = false -> hasSourceImports content = false.
Proof.
  intros H. apply test_false. intros pre rest Hs.
  cbv [seqs word plus opt]. cbn [run].
  rewrite run_lit.
  destruct (startsWith rest (js "from ")) eqn:E1; [|reflexivity].
  apply startsWith_app in E1.
  destruct (skipn (List.length (js "from ")) rest) as [|c rest'] eqn:E2;
    [reflexivity|].
  destruct (isAnyOf [apostrophe; quotation] c); [|reflexivity].
  rewrite run_lit.
  destruct (startsWith rest' (js ".")) eqn:E3; [|reflexivity].
  rewrite run_lit.
  destruct (startsWith (skipn (List.length (js ".")) rest') (js ".")) eqn:E4;
    [|reflexivity].
  exfalso.
  assert (Two : startsWith rest' (js "..") = true).
  { apply startsWith_app in E3, E4. rewrite E4 in E3. rewrite E3.
    reflexivity. }
  rewrite (includes_false content (js "..") H
             (pre ++ js "from " ++ [c]) rest') in Two; [discriminate|].
  rewrite Hs, E1. now rewrite <- !app_assoc.
Qed.

Lemma sibling_imports_flagged (content filePath : jsstring) :
  includes content (js "..") = false ->
  hasTestingLibImports content = true ->
  isIntegrationTest filePath = false ->
  In reason4 (collectReasons content filePath).
Proof.
  intros Hdots Hlib Hint. apply reason4_pushed. unfold antiPattern4.
  now rewrite Hlib, Hint, (hasSourceImports_needs_two_dots content Hdots).
Qed.

(** The same test importing the module from the parent directory is not
    flagged. *)
Lemma parent_import_not_flagged :
  let filePath := js "src/__tests__/Button.test.tsx" in
  let content := js "import { render } from '@testing-library/react';
import { Button } from '../Button';
test('renders', () => { render(Button()); });" in
  hasSourceImports content = true
  /\ antiPattern4 content filePath = false
  /\ analyze content filePath = None.
Proof.
  vm_compute. repeat split; reflexivity.
Qed.

(* ------------------------------------------------------------------ *)
(** ** Facts about [map], [filter] and [sort] *)

Lemma mapThrowing_Normal {A B : Type} (f : A -> completion B)
  (xs : list A) (ys : list B) :
  mapThrowing f xs = Normal ys -> Forall2 (fun x y => f x = Normal y) xs ys.
Proof.
  revert ys. induction xs as [|x xs IH]; simpl; intros ys H.
  - injection H as <-. constructor.
  - destruct (f x) as [y|e] eqn:Ex; simpl in H; [|discriminate].
    destruct (mapThrowing f xs) as [ys'|e]; simpl in H; [|discriminate].
    injection H as <-. constructor; auto.
Qed.

Lemma mapThrowing_readable {A B : Type} (f : A -> completion B) (xs : list A) :
  (exists ys, mapThrowing f xs = Normal ys)
  <-> Forall (fun x => exists y, f x = Normal y) xs.
Proof.
  induction xs as [|x xs IH]; simpl.
  - split; [constructor|]. intros _. now exists [].
  - split.
    + intros [ys H]. destruct (f x) as [y|e] eqn:Ex; simpl in H; [|discriminate].
      destruct (mapThrowing f xs) as [ys'|e]; simpl in H; [|discriminate].
      constructor; [now exists y|]. apply IH. now exists ys'.
    + intros H. inversion H as [|? ? [y Hy] Hxs]; subst.
      apply IH in Hxs. destruct Hxs as [ys Hys].
      exists (y :: ys). now rewrite Hy, Hys.
Qed.

(** When [map] throws, the error is that of the first element on which the
    function throws. *)
Lemma mapThrowing_Throw {A B : Type} (f : A -> completion B)
  (xs : list A) (e : jsstring) :
  mapThrowing f xs = Throw e <->
  exists before x after,
    xs = before ++ x :: after
    /\ Forall (fun x' => exists y, f x' = Normal y) before
    /\ f x = Throw e.
Proof.
  induction xs as [|x xs IH]; simpl.
  - split; [discriminate|]. intros (before & x & after & H & _).
    now destruct before.
  - destruct (f x) as [y|e'] eqn:Ex; simpl.
    + destruct (mapThrowing f xs) as [ys|e''] eqn:Em; simpl.
      * split; [discriminate|].
        intros (before & x' & after & H & Hb & Hx).
        destruct before as [|b before]; simpl in H; injection H as -> ->.
        -- congruence.
        -- inversion Hb; subst.
           assert (Normal ys = Throw e :> completion (list B)); [|discriminate].
           apply IH. now exists before, x', after.
      * split.
        -- intros H. injection H as ->.
           destruct (proj1 IH eq_refl) as (before & x' & after & -> & Hb & Hx).
           exists (x :: before), x', after. repeat split; auto.
           constructor; auto. now exists y.
        -- intros (before & x' & after & H & Hb & Hx).
           destruct before as [|b before]; simpl in H; injection H as -> ->.
           ++ congruence.
           ++ inversion Hb; subst. f_equal.
              assert (Throw e'' = Throw e :> completion (list B)) as Heq.
              { apply IH. now exists before, x', after. }
              now injection Heq.
    + split.
      * intros H. injection H as ->. exists [], x, xs. repeat split; auto.
      * intros (before & x' & after & H & Hb & Hx).
        destruct before as [|b before]; simpl in H; injection H as -> ->.
        -- congruence.
        -- inversion Hb as [|? ? [y Hy] ?]; subst. congruence.
Qed.

Lemma notNull_In {A : Type} (xs : list (option A)) (x : A) :
  In x (notNull xs) <-> In (Some x) xs.
Proof.
  induction xs as [|[y|] xs IH]; simpl.
  - tauto.
  - rewrite IH. split; intros [H|H]; auto.
    + left. now f_equal.
    + left. now injection H.
  - rewrite IH. split; [auto|]. intros [H|H]; [discriminate|auto].
Qed.

Section SortFacts.
Variable A : Type.
Variable comparator : A -> A -> option Z.

Let before (a b : A) : Prop := notAfter comparator a b = true.

Hypothesis before_total : forall a b, before a b \/ before b a.
Hypothesis before_trans : forall a b c, before a b -> before b c -> before a c.

Lemma insert_Permutation (a : A) (l : list A) :
  Permutation (insert comparator a l) (a :: l).
Proof.
  induction l as [|b l IH]; simpl; [reflexivity|].
  destruct (notAfter comparator a b); [reflexivity|].
  rewrite IH. apply perm_swap.
Qed.

Lemma sort_Permutation (l : list A) : Permutation (sort comparator l) l.
Proof.
  induction l as [|a l IH]; simpl; [reflexivity|].
  rewrite insert_Permutation. now constructor.
Qed.

Lemma insert_Sorted (a : A) (l : list A) :
  Sorted before l -> Sorted before (insert comparator a l).
Proof.
  induction 1 as [|b l Hl IH Hb]; simpl.
  - repeat constructor.
  - destruct (notAfter comparator a b) eqn:E.
    + constructor; [now constructor|]. now constructor.
    + constructor; [exact IH|].
      assert (Hba : before b a).
      { destruct (before_total a b) as [H|H]; [|exact H].
        unfold before in H. congruence. }
      destruct Hb as [|c l' Hbc]; simpl.
      * now constructor.
      * destruct (notAfter comparator a c); now constructor.
Qed.

Lemma sort_StronglySorted (l : list A) :
  StronglySorted before (sort comparator l).
Proof.
  apply Sorted_StronglySorted; [exact before_trans|].
  induction l as [|a l IH]; simpl; [constructor|].
  now apply insert_Sorted.
Qed.
End SortFacts.

Lemma StronglySorted_later {A : Type} (R : A -> A -> Prop)
  (pre : list A) (x : A) (rest : list A) (y : A) :
  StronglySorted R (pre ++ x :: rest) -> In y rest -> R x y.
Proof.
  induction pre as [|p pre IH]; simpl; intros H Hy.
  - inversion H as [|? ? _ Hall]; subst.
    rewrite Forall_forall in Hall. now apply Hall.
  - inversion H; subst. now apply IH.
Qed.

(* ------------------------------------------------------------------ *)
(** ** The suite scanner *)

Lemma detectUselessTests_unfold (h : Host) (options : DetectorOptions) :
  detectUselessTests h options =
    bind (mapThrowing (analyzeTestFile h) (allTestFiles h options))
      (fun analyzed =>
         Normal
           (sort compareTests
              (filter
                 (atLeast
                    (confidenceLevels
                       (orDefault (minConfidence options) (js "low"))))
                 (notNull analyzed)))).
Proof. reflexivity. Qed.

Lemma confidenceLevels_name (c : Confidence) :
  confidenceLevels (confidenceName c) = Some (rank c).
Proof. destruct c; reflexivity. Qed.

Lemma notAfter_compareTests (a b : SuspiciousTest) :
  notAfter compareTests a b = true <-> precedes a b.
Proof.
  unfold notAfter, compareTests, precedes.
  rewrite !confidenceLevels_name. simpl.
  destruct (confidence a), (confidence b); simpl;
    rewrite ?Z.leb_le;
    split; intros H;
    try (left; lia); try (right; split; [reflexivity|lia]);
    try reflexivity; try lia;
    try (destruct H as [H|[H1 H2]]; [lia|try discriminate H1; lia]).
Qed.

Lemma precedes_total (a b : SuspiciousTest) : precedes a b \/ precedes b a.
Proof.
  unfold precedes.
  destruct (confidence a), (confidence b); simpl;
    try (left; left; lia); try (right; left; lia);
    destruct (Nat.le_ge_cases (lineCount a) (lineCount b));
    [right|left|right|left|right|left]; right; auto.
Qed.

Lemma precedes_trans (a b c : SuspiciousTest) :
  precedes a b -> precedes b c -> precedes a c.
Proof.
  unfold precedes. intros [H1|[E1 L1]] [H2|[E2 L2]].
  - left. lia.
  - left. rewrite <- E2. exact H1.
  - left. rewrite E1. exact H2.
  - right. split; [congruence|lia].
Qed.

Lemma sort_compareTests_sorted (l : list SuspiciousTest) :
  StronglySorted precedes (sort compareTests l).
Proof.
  assert (S : StronglySorted (fun a b => notAfter compareTests a b = true)
                (sort compareTests l)).
  { apply sort_StronglySorted.
    - intros a b. rewrite !notAfter_compareTests. apply precedes_total.
    - intros a b c. rewrite !notAfter_compareTests. apply precedes_trans. }
  induction S as [|a l' _ IH Hall]; constructor; auto.
  rewrite Forall_forall in *. intros b Hb.
  apply notAfter_compareTests. now apply Hall.
Qed.

Lemma sort_In {A : Type} (comparator : A -> A -> option Z) (l : list A) (x : A) :
  In x (sort comparator l) <-> In x l.
Proof.
  split; apply Permutation_in;
    [|apply Permutation_sym]; apply sort_Permutation.
Qed.

(** Every record of a scan that returns is the verdict of an enumerated
    file that was read, and passes the filter. *)
Lemma detectUselessTests_In (h : Host) (options : DetectorOptions)
  (out : list SuspiciousTest) (t : SuspiciousTest) :
  detectUselessTests h options = Normal out ->
  In t out ->
  exists filePath content,
    In filePath (allTestFiles h options)
    /\ readFileSync h filePath = Normal content
    /\ analyze content filePath = Some t
    /\ atLeast (confidenceLevels (orDefault (minConfidence options) (js "low")))
         t = true.
Proof.
  rewrite detectUselessTests_unfold. intros H Hin.
  destruct (mapThrowing (analyzeTestFile h) (allTestFiles h options))
    as [analyzed|e] eqn:Em; simpl in H; [|discriminate].
  injection H as <-.
  apply sort_In in Hin. apply filter_In in Hin. destruct Hin as [Hin Hlevel].
  apply notNull_In in Hin.
  apply mapThrowing_Normal in Em.
  revert Hin. induction Em as [|p r ps rs Hp _ IH]; simpl; [tauto|].
  intros [->|Hin].
  - unfold analyzeTestFile in Hp.
    destruct (readFileSync h p) as [content|e] eqn:Er; simpl in Hp;
      [|discriminate].
    injection Hp as Hp. exists p, content. auto.
  - destruct (IH Hin) as (p' & c' & H1 & H2). exists p', c'. auto.
Qed.

(* ------------------------------------------------------------------ *)
(** ** Files that cannot be read *)

(** C2, counterexample.  [src/types.test.ts] is enumerated and then cannot
    be read: the scan does not skip it and return the other files, it
    throws. *)
Lemma C2_vanished_file_fails_scan :
  In (js "src/types.test.ts") (allTestFiles Sample.vanished Sample.defaults)
  /\ readFileSync Sample.vanished (js "src/types.test.ts") = Throw (js "ENOENT")
  /\ detectUselessTests Sample.vanished Sample.defaults = Throw (js "ENOENT")
  /\ ~ exists out, detectUselessTests Sample.vanished Sample.defaults = Normal out.
Proof.
  assert (E : detectUselessTests Sample.vanished Sample.defaults
              = Throw (js "ENOENT")) by (vm_compute; reflexivity).
  split; [|split; [|split]].
  - vm_compute. auto.
  - reflexivity.
  - exact E.
  - intros [out H]. rewrite E in H. discriminate H.
Qed.

Lemma analyzeTestFile_Normal (h : Host) (filePath : jsstring) :
  (exists r, analyzeTestFile h filePath = Normal r)
  <-> (exists content, readFileSync h filePath = Normal content).
Proof.
  unfold analyzeTestFile.
  destruct (readFileSync h filePath) as [content|e]; simpl; split.
  - intros _. now exists content.
  - intros _. now exists (analyze content filePath).
  - intros [r H]. discriminate H.
  - intros [content H]. discriminate H.
Qed.

Lemma analyzeTestFile_Throw (h : Host) (filePath e : jsstring) :
  analyzeTestFile h filePath = Throw e <-> readFileSync h filePath = Throw e.
Proof.
  unfold analyzeTestFile.
  destruct (readFileSync h filePath) as [content|e']; simpl; split;
    congruence.
Qed.

(** C2, as the code has it.  Neither [analyzeTestFile] nor
    [detectUselessTests] catches the error of [readFileSync]: when an
    enumerated file cannot be read, the scan returns no result and throws,
    and the error it throws is that of the first enumerated file that cannot
    be read. *)
Theorem C2_read_error_ends_scan
  (h : Host) (options : DetectorOptions) (filePath e : jsstring) :
  In filePath (allTestFiles h options) ->
  readFileSync h filePath = Throw e ->
  exists e' before failing after,
    detectUselessTests h options = Throw e'
    /\ allTestFiles h options = before ++ failing :: after
    /\ Forall (fun p => exists content, readFileSync h p = Normal content) before
    /\ readFileSync h failing = Throw e'.
Proof.
  intros Hin Hread. rewrite detectUselessTests_unfold.
  destruct (mapThrowing (analyzeTestFile h) (allTestFiles h options))
    as [analyzed|e'] eqn:Em.
  - exfalso.
    assert (Hall : Forall (fun x => exists y, analyzeTestFile h x = Normal y)
                     (allTestFiles h options)).
    { apply mapThrowing_readable. now exists analyzed. }
    rewrite Forall_forall in Hall. destruct (Hall _ Hin) as [r Hr].
    apply analyzeTestFile_Throw in Hread. congruence.
  - apply mapThrowing_Throw in Em.
    destruct Em as (before & failing & after & Hsplit & Hbefore & Hfail).
    exists e', before, failing, after. simpl. repeat split; auto.
    + eapply Forall_impl; [|exact Hbefore].
      intros p Hp. now apply analyzeTestFile_Normal.
    + now apply analyzeTestFile_Throw.
Qed.

(** The theorem at the sample project with the vanished file. *)
Lemma C2_read_error_ends_scan_witness :
  exists e' before failing after,
    detectUselessTests Sample.vanished Sample.defaults = Throw e'
    /\ allTestFiles Sample.vanished Sample.defaults = before ++ failing :: after
    /\ Forall (fun p => exists content,
                 readFileSync Sample.vanished p = Normal content) before
    /\ readFileSync Sample.vanished failing = Throw e'.
Proof.
  apply (C2_read_error_ends_scan Sample.vanished Sample.defaults
           (js "src/types.test.ts") (js "ENOENT")).
  - vm_compute. auto.
  - reflexivity.
Defined.

(* ------------------------------------------------------------------ *)
(** ** Files with no reason *)

(** C5.  A file on which no anti-pattern fires is dropped: whatever the
    options, and so whatever the minimum confidence, no record of a scan
    has its path. *)
Theorem C5_clean_file_not_reported
  (h : Host) (options : DetectorOptions) (out : list SuspiciousTest)
  (filePath content : jsstring) :
  detectUselessTests h options = Normal out ->
  readFileSync h filePath = Normal content ->
  triggeredCount content filePath = 0%nat ->
  forall t, In t out -> file t <> filePath.
Proof.
  intros Hout Hread Hnone t Hin Hfile.
  destruct (detectUselessTests_In h options out t Hout Hin)
    as (p & c & _ & Hp & Ha & _).
  destruct (analyze_reasons c p t Ha) as [Hf _].
  rewrite Hf in Hfile. rewrite Hfile in Hp, Ha.
  rewrite Hread in Hp. injection Hp as <-.
  rewrite analyze_by_count, Hnone in Ha. discriminate Ha.
Qed.

(** The theorem at the sample project: [src/clean.test.ts] is read, has no
    reason and is not among the three records. *)
Lemma C5_clean_file_not_reported_witness :
  exists out,
    detectUselessTests Sample.host Sample.defaults = Normal out
    /\ List.length out = 3%nat
    /\ forall t, In t out -> file t <> js "src/clean.test.ts".
Proof.
  eexists. split; [vm_compute; reflexivity|]. split; [reflexivity|].
  apply (C5_clean_file_not_reported Sample.host Sample.defaults _
           (js "src/clean.test.ts") Sample.cleanTest).
  - vm_compute. reflexivity.
  - reflexivity.
  - vm_compute. reflexivity.
Defined.

(* ------------------------------------------------------------------ *)
(** ** The order of the report *)

(** C6.  In the result of a scan, a record never has a lower rank than a
    record after it, and of two records with the same confidence the later
    one never has more lines; in particular this holds for neighbours. *)
Theorem C6_report_sorted
  (h : Host) (options : DetectorOptions)
  (out front between back : list SuspiciousTest) (x y : SuspiciousTest) :
  detectUselessTests h options = Normal out ->
  out = front ++ x :: between ++ y :: back ->
  (rank (confidence y) <= rank (confidence x))%Z
  /\ (confidence x = confidence y -> (lineCount y <= lineCount x)%nat).
Proof.
  rewrite detectUselessTests_unfold. intros H Hsplit.
  destruct (mapThrowing (analyzeTestFile h) (allTestFiles h options))
    as [analyzed|e]; simpl in H; [|discriminate].
  injection H as H.
  assert (P : precedes x y).
  { apply (StronglySorted_later precedes front x (between ++ y :: back) y).
    - rewrite <- Hsplit, <- H. apply sort_compareTests_sorted.
    - apply in_or_app. right. now left. }
  destruct P as [P|[E L]].
  - split; [lia|]. intros E. rewrite E in P. lia.
  - split; [rewrite E; lia|auto].
Qed.

(** The theorem at the first two records of the sample report. *)
Lemma C6_report_sorted_witness :
  exists x y back,
    detectUselessTests Sample.host Sample.defaults = Normal (x :: y :: back)
    /\ (rank (confidence y) <= rank (confidence x))%Z
    /\ (confidence x = confidence y -> (lineCount y <= lineCount x)%nat).
Proof.
  eexists. eexists. eexists.
  split; [vm_compute; reflexivity|].
  eapply (C6_report_sorted Sample.host Sample.defaults _ [] [] _).
  - vm_compute. reflexivity.
  - reflexivity.
Defined.

(* ------------------------------------------------------------------ *)
(** ** The filter on the minimum confidence *)

Lemma atLeast_weaken (a b : Z) (t : SuspiciousTest) :
  (b <= a)%Z -> atLeast (Some a) t = true -> atLeast (Some b) t = true.
Proof.
  unfold atLeast, geNumber. rewrite confidenceLevels_name.
  rewrite !Z.leb_le. lia.
Qed.

(** Two scans of the same host, directories and patterns: every record
    that passes the higher level passes the lower one. *)
Lemma scan_incl (h : Host) (dirs : option (list jsstring))
  (patterns : option (list regex)) (upper lower : jsstring) (a b : Z)
  (outUpper outLower : list SuspiciousTest) :
  confidenceLevels upper = Some a ->
  confidenceLevels lower = Some b ->
  (b <= a)%Z ->
  detectUselessTests h (optionsWith dirs upper patterns) = Normal outUpper ->
  detectUselessTests h (optionsWith dirs lower patterns) = Normal outLower ->
  incl outUpper outLower.
Proof.
  intros Ha Hb Hle. rewrite !detectUselessTests_unfold.
  change (allTestFiles h (optionsWith dirs lower patterns))
    with (allTestFiles h (optionsWith dirs upper patterns)).
  destruct (mapThrowing (analyzeTestFile h)
              (allTestFiles h (optionsWith dirs upper patterns)))
    as [analyzed|e]; simpl; [|discriminate].
  rewrite Ha, Hb. intros Hu Hl. injection Hu as <-. injection Hl as <-.
  intros t Ht. apply sort_In in Ht. apply filter_In in Ht.
  destruct Ht as [Hin Hlevel].
  apply sort_In. apply filter_In. split; [exact Hin|].
  now apply (atLeast_weaken a b).
Qed.

(** C7.  For one host, one list of directories and one set of patterns,
    every record of the scan at level high is a record of the scan at level
    medium, and every record of the scan at level medium is a record of the
    scan at level low. *)
Theorem C7_filter_monotone
  (h : Host) (dirs : option (list jsstring)) (patterns : option (list regex))
  (outHigh outMedium outLow : list SuspiciousTest) :
  detectUselessTests h (optionsWith dirs (js "high") patterns) = Normal outHigh ->
  detectUselessTests h (optionsWith dirs (js "medium") patterns) = Normal outMedium ->
  detectUselessTests h (optionsWith dirs (js "low") patterns) = Normal outLow ->
  incl outHigh outMedium /\ incl outMedium outLow.
Proof.
  intros Hh Hm Hl. split.
  - apply (scan_incl h dirs patterns (js "high") (js "medium") 3 2); auto.
    lia.
  - apply (scan_incl h dirs patterns (js "medium") (js "low") 2 1); auto.
    lia.
Qed.

(** The theorem at the sample project: one, two and three records. *)
Lemma C7_filter_monotone_witness :
  exists outHigh outMedium outLow,
    detectUselessTests Sample.host (Sample.withLevel "high") = Normal outHigh
    /\ detectUselessTests Sample.host (Sample.withLevel "medium") = Normal outMedium
    /\ detectUselessTests Sample.host (Sample.withLevel "low") = Normal outLow
    /\ (List.length outHigh, List.length outMedium, List.length outLow)
       = (1, 2, 3)%nat
    /\ incl outHigh outMedium /\ incl outMedium outLow.
Proof.
  eexists. eexists. eexists.
  split; [vm_compute; reflexivity|].
  split; [vm_compute; reflexivity|].
  split; [vm_compute; reflexivity|].
  split; [reflexivity|].
  apply (C7_filter_monotone Sample.host None None); vm_compute; reflexivity.
Defined.

Lemma filter_none {A : Type} (f : A -> bool) (l : list A) :
  (forall x, f x = false) -> filter f l = [].
Proof.
  intros H. induction l as [|x l IH]; simpl; [reflexivity|].
  now rewrite H.
Qed.

Lemma confidenceLevels_unknown (level : jsstring) :
  level <> js "high" -> level <> js "medium" -> level <> js "low" ->
  confidenceLevels level = None.
Proof.
  intros H1 H2 H3. unfold confidenceLevels, jsstring_eqb.
  destruct (list_eq_dec N.eq_dec level (js "high")); [contradiction|].
  destruct (list_eq_dec N.eq_dec level (js "medium")); [contradiction|].
  destruct (list_eq_dec N.eq_dec level (js "low")); [contradiction|].
  reflexivity.
Qed.

(** C8.  A minimum confidence that is none of high, medium and low is not
    refused: the scan runs as it does for a known level, and then the filter
    keeps no record, so a scan that returns, returns the empty list. *)
Theorem C8_unknown_level_excludes_all
  (h : Host) (dirs : option (list jsstring)) (patterns : option (list regex))
  (level : jsstring) :
  level <> js "high" -> level <> js "medium" -> level <> js "low" ->
  detectUselessTests h (optionsWith dirs level patterns) =
    bind (detectUselessTests h (optionsWith dirs (js "low") patterns))
      (fun _ => Normal []).
Proof.
  intros H1 H2 H3. rewrite !detectUselessTests_unfold.
  change (allTestFiles h (optionsWith dirs level patterns))
    with (allTestFiles h (optionsWith dirs (js "low") patterns)).
  destruct (mapThrowing (analyzeTestFile h)
              (allTestFiles h (optionsWith dirs (js "low") patterns)))
    as [analyzed|e]; simpl; [|reflexivity].
  rewrite (confidenceLevels_unknown level H1 H2 H3).
  rewrite filter_none; [reflexivity|].
  intros t. unfold atLeast, geNumber.
  now destruct (confidenceLevels (confidenceName (confidence t))).
Qed.

(** The theorem at the level [HIGH], which is not [high]. *)
Lemma C8_unknown_level_excludes_all_witness :
  detectUselessTests Sample.host (Sample.withLevel "HIGH") = Normal []
  /\ detectUselessTests Sample.vanished (Sample.withLevel "HIGH")
     = Throw (js "ENOENT").
Proof.
  unfold Sample.withLevel. split.
  - rewrite (C8_unknown_level_excludes_all Sample.host None None (js "HIGH"));
      [vm_compute; reflexivity| | |]; vm_compute; discriminate.
  - rewrite (C8_unknown_level_excludes_all Sample.vanished None None (js "HIGH"));
      [vm_compute; reflexivity| | |]; vm_compute; discriminate.
Defined.

(* ------------------------------------------------------------------ *)
(** ** The file locator and the excluded directories *)

Lemma entered_not_excluded (item : jsstring) (sub : dirent) :
  isDirectory sub
  && negb (includes item (js "node_modules"))
  && negb (includes item (js "dist"))
  = isDirectory sub && negb (excluded item).
Proof.
  unfold excluded. rewrite negb_orb. now rewrite andb_assoc.
Qed.

Section ItemsFacts.
Variable join : jsstring -> jsstring -> jsstring.
Variable patterns : list regex.
Variable recurse : jsstring -> dirent -> list jsstring.
Variable dir : jsstring.

(** Where a path pushed by the loop comes from. *)
Lemma eachItem_In (items : list (jsstring * dirent)) (files : list jsstring)
  (path : jsstring) :
  In path (eachItem join patterns recurse dir items files) ->
  In path files
  \/ exists item sub,
       In (item, sub) items
       /\ ((isDirectory sub = true /\ excluded item = false
            /\ In path (recurse (join dir item) sub))
           \/ (path = join dir item
               /\ existsb (fun pattern => test pattern item) patterns = true)).
Proof.
  revert files. induction items as [|[item sub] rest IH]; simpl; intros files H.
  - now left.
  - assert (Step : forall files',
              In path (eachItem join patterns recurse dir rest files') ->
              (In path files' ->
               In path files
               \/ exists item0 sub0,
                    ((item, sub) = (item0, sub0) \/ In (item0, sub0) rest)
                    /\ ((isDirectory sub0 = true /\ excluded item0 = false
                         /\ In path (recurse (join dir item0) sub0))
                        \/ (path = join dir item0
                            /\ existsb (fun pattern => test pattern item0)
                                 patterns = true))) ->
              In path files
              \/ exists item0 sub0,
                   ((item, sub) = (item0, sub0) \/ In (item0, sub0) rest)
                   /\ ((isDirectory sub0 = true /\ excluded item0 = false
                        /\ In path (recurse (join dir item0) sub0))
                       \/ (path = join dir item0
                           /\ existsb (fun pattern => test pattern item0)
                                patterns = true))).
    { intros files' Hrest Hfiles.
      destruct (IH files' Hrest) as [Hin|(item0 & sub0 & Hin & Hwhy)].
      - now apply Hfiles.
      - right. exists item0, sub0. split; [now right|exact Hwhy]. }
    rewrite entered_not_excluded in H.
    destruct sub as [| |listing]; [now left| |].
    + simpl in H.
      destruct (existsb (fun pattern => test pattern item) patterns) eqn:Em.
      * apply (Step _ H). intros Hin. apply in_app_or in Hin.
        destruct Hin as [Hin|[<-|[]]]; [now left|].
        right. exists item, File. split; [now left|]. right. now split.
      * apply (Step _ H). intros Hin. now left.
    + simpl in H. destruct (excluded item) eqn:Ex; simpl in H.
      * destruct (existsb (fun pattern => test pattern item) patterns) eqn:Em.
        -- apply (Step _ H). intros Hin. apply in_app_or in Hin.
           destruct Hin as [Hin|[<-|[]]]; [now left|].
           right. exists item, (Directory listing). split; [now left|].
           right. now split.
        -- apply (Step _ H). intros Hin. now left.
      * apply (Step _ H). intros Hin. apply in_app_or in Hin.
        destruct Hin as [Hin|Hin]; [now left|].
        right. exists item, (Directory listing). split; [now left|].
        left. repeat split; auto.
Qed.
End ItemsFacts.

Lemma prune_Directory (items : list (jsstring * dirent)) :
  prune (Directory (Some items)) = Directory (Some (map pruneEntry items)).
Proof. reflexivity. Qed.

Section Locator.
Variable join : jsstring -> jsstring -> jsstring.
Variable patterns : list regex.

(** The loop does not look below an excluded directory. *)
Lemma eachItem_prune (recurse : jsstring -> dirent -> list jsstring)
  (dir : jsstring) (items : list (jsstring * dirent)) :
  Forall (fun entry =>
            forall dir', recurse dir' (prune (snd entry))
                         = recurse dir' (snd entry)) items ->
  forall files,
    eachItem join patterns recurse dir (map pruneEntry items) files
    = eachItem join patterns recurse dir items files.
Proof.
  induction 1 as [|[item sub] rest Hsub _ IH]; intros files; simpl;
    [reflexivity|].
  simpl in Hsub. rewrite !entered_not_excluded.
  destruct sub as [| |listing]; simpl.
  - reflexivity.
  - destruct (existsb (fun pattern => test pattern item) patterns);
      apply IH.
  - destruct (excluded item) eqn:Ex; simpl.
    + destruct (existsb (fun pattern => test pattern item) patterns);
        apply IH.
    + specialize (Hsub (join dir item)).
      destruct listing as [items'|]; simpl in *; rewrite ?Hsub; apply IH.
Qed.

Lemma findTestFilesIn_prune (d : dirent) :
  forall dir,
    findTestFilesIn join patterns dir (prune d)
    = findTestFilesIn join patterns dir d.
Proof.
  induction d as [| | |items IH] using dirent_nested_ind; intros dir;
    try reflexivity.
  rewrite prune_Directory. simpl. now apply eachItem_prune.
Qed.

(** Every reported path is an item that matches a pattern, in a directory
    reached from the root through items that are not excluded. *)
Lemma findTestFilesIn_origin (d : dirent) :
  forall dir path,
    In path (findTestFilesIn join patterns dir d) ->
    exists names items item sub,
      within d names (Directory (Some items))
      /\ In (item, sub) items
      /\ Forall (fun name => excluded name = false) names
      /\ path = join (fold_left join names dir) item
      /\ existsb (fun pattern => test pattern item) patterns = true.
Proof.
  induction d as [| | |items IH] using dirent_nested_ind; intros dir path H;
    try contradiction.
  simpl in H. apply eachItem_In in H.
  destruct H as [[]|(item & sub & Hin & [(Hdir & Hex & Hsub)|(-> & Hm)])].
  - rewrite Forall_forall in IH.
    destruct (IH (item, sub) Hin _ _ Hsub)
      as (names & items' & item' & sub' & Hw & Hin' & Hclean & -> & Hm).
    exists (item :: names), items', item', sub'. repeat split; auto.
    + now apply within_item with (sub := sub).
  - exists [], items, item, sub. repeat split; auto. constructor.
Qed.
End Locator.

(** C9, counterexample.  When the directory handed to the file locator is
    itself named [dist], it is entered and the test file in it is
    reported. *)
Lemma C9_scanned_root_is_entered :
  excluded (js "dist") = true
  /\ findTestFiles Sample.distHost (js "dist") DEFAULT_TEST_PATTERNS
     = [js "dist/widget.test.js"].
Proof.
  split; vm_compute; reflexivity.
Qed.

(** C9, as the code has it.  The exclusion applies to the items met during
    the traversal, not to the directory the traversal starts from.  Every
    path in the output is an item that matches a pattern and lies in a
    directory reached from the starting directory through items whose names
    include neither [node_modules] nor [dist]; and the output is the same
    for two trees that differ only below excluded directories, which are
    thus never entered. *)
Theorem C9_excluded_directories_not_entered
  (h : Host) (dir : jsstring) (patterns : list regex) :
  (forall path,
     In path (findTestFiles h dir patterns) ->
     exists names items item sub,
       within (entryAt h dir) names (Directory (Some items))
       /\ In (item, sub) items
       /\ Forall (fun name => excluded name = false) names
       /\ path = join h (fold_left (join h) names dir) item
       /\ existsb (fun pattern => test pattern item) patterns = true)
  /\ (forall h',
        join h' = join h ->
        prune (entryAt h' dir) = prune (entryAt h dir) ->
        findTestFiles h' dir patterns = findTestFiles h dir patterns).
Proof.
  split.
  - intros path H. now apply findTestFilesIn_origin.
  - intros h' Hjoin Hprune. unfold findTestFiles. rewrite Hjoin.
    rewrite <- (findTestFilesIn_prune (join h) patterns (entryAt h' dir)).
    rewrite Hprune. apply findTestFilesIn_prune.
Qed.

(** The theorem at the sample project: [src/orders/parser.test.ts] is
    reached through [orders], and what [node_modules] holds does not
    matter. *)
Lemma C9_excluded_directories_not_entered_witness :
  (exists names items item sub,
     within (entryAt Sample.host (js "src")) names (Directory (Some items))
     /\ In (item, sub) items
     /\ Forall (fun name => excluded name = false) names
     /\ js "src/orders/parser.test.ts"
        = joinPosix (fold_left joinPosix names (js "src")) item
     /\ existsb (fun pattern => test pattern item) DEFAULT_TEST_PATTERNS = true)
  /\ findTestFiles Sample.reinstalled (js "src") DEFAULT_TEST_PATTERNS
     = findTestFiles Sample.host (js "src") DEFAULT_TEST_PATTERNS.
Proof.
  destruct (C9_excluded_directories_not_entered Sample.host (js "src")
              DEFAULT_TEST_PATTERNS) as [Horigin Hsame].
  split.
  - apply Horigin. vm_compute. auto.
  - apply Hsame; reflexivity.
Defined.

(** The theorem at a file named [integration.test.ts] that imports a
    testing library and nothing else. *)
Lemma C10_no_import_and_fake_integration_exclusive_witness :
  let content := js "import { screen } from '@testing-library/react';
test('page', () => { expect(screen).toBeDefined(); });" in
  let filePath := js "tests/integration.test.ts" in
  collectReasons content filePath = [reason7]
  /\ ~ (In reason4 (collectReasons content filePath)
        /\ In reason7 (collectReasons content filePath)).
Proof.
  split; [vm_compute; reflexivity|].
  apply (C10_no_import_and_fake_integration_exclusive
           (js "import { screen } from '@testing-library/react';
test('page', () => { expect(screen).toBeDefined(); });")
           (js "tests/integration.test.ts")).
Defined.

(* ------------------------------------------------------------------ *)
(** ** Splitting and line counts *)

Lemma split_not_nil (sep : N) (s : jsstring) : split sep s <> [].
Proof.
  destruct s as [|c s]; simpl; [discriminate|].
  destruct (N.eqb c sep); [discriminate|].
  destruct (split sep s); discriminate.
Qed.

Lemma joinWith_cons (sep : N) (piece : jsstring) (pieces : list jsstring) :
  pieces <> [] ->
  joinWith sep (piece :: pieces) = piece ++ sep :: joinWith sep pieces.
Proof. destruct pieces; [contradiction|reflexivity]. Qed.

Lemma split_joinWith (sep : N) (s : jsstring) :
  joinWith sep (split sep s) = s.
Proof.
  induction s as [|c s IH]; simpl; [reflexivity|].
  destruct (N.eqb_spec c sep) as [->|Hc].
  - rewrite joinWith_cons by apply split_not_nil. simpl. now rewrite IH.
  - destruct (split sep s) as [|piece pieces] eqn:E.
    + now destruct (split_not_nil sep s).
    + rewrite <- IH. destruct pieces; reflexivity.
Qed.

Lemma split_length (sep : N) (s : jsstring) :
  List.length (split sep s) = S (count_occ N.eq_dec s sep).
Proof.
  induction s as [|c s IH]; simpl; [reflexivity|].
  destruct (N.eqb_spec c sep) as [->|Hc].
  - destruct (N.eq_dec sep sep); [|contradiction]. simpl. now rewrite IH.
  - destruct (N.eq_dec c sep); [contradiction|].
    destruct (split sep s) as [|piece pieces] eqn:E.
    + now destruct (split_not_nil sep s).
    + exact IH.
Qed.

Lemma split_pieces (sep : N) (s : jsstring) :
  Forall (fun piece => ~ In sep piece) (split sep s).
Proof.
  induction s as [|c s IH]; simpl.
  - constructor; [tauto|constructor].
  - destruct (N.eqb_spec c sep) as [->|Hc].
    + constructor; [tauto|exact IH].
    + destruct (split sep s) as [|piece pieces] eqn:E.
      * repeat constructor. intros [H|[]]. congruence.
      * inversion IH as [|? ? Hp Hps]; subst. constructor; [|exact Hps].
        intros [H|H]; [congruence|contradiction].
Qed.

Lemma split_lines_split (s : jsstring) : split_lines s = split lineFeed s.
Proof.
  induction s as [|c s IH]; simpl; [reflexivity|]. now rewrite IH.
Qed.

(** X5.  The line count of a record is the number of line feeds of the
    content plus one: it is never zero, an empty file counts one line, and
    a text that ends in a line feed counts the empty piece after it. *)
Theorem lineCount_counts_line_feeds
  (content filePath : jsstring) (t : SuspiciousTest) :
  analyze content filePath = Some t ->
  lineCount t = S (count_occ N.eq_dec content lineFeed)
  /\ (forall text, content = text ++ [lineFeed] ->
                   lineCount t = S (S (count_occ N.eq_dec text lineFeed))).
Proof.
  intros H. rewrite analyze_by_count in H.
  destruct (verdictOfCount (triggeredCount content filePath)); [|discriminate].
  injection H as <-. simpl. rewrite split_lines_split, split_length.
  split; [reflexivity|].
  intros text ->. rewrite count_occ_app. simpl.
  destruct (N.eq_dec lineFeed lineFeed); [lia|contradiction].
Qed.

(** The theorem at a file of three lines that ends in a line feed: four
    pieces. *)
Lemma lineCount_counts_line_feeds_witness :
  exists t,
    analyze (Sample.placeholderTest ++ [lineFeed])
      (js "src/orders/placeholder.spec.ts") = Some t
    /\ lineCount t = 4%nat.
Proof.
  eexists. split; [vm_compute; reflexivity|].
  apply (lineCount_counts_line_feeds (Sample.placeholderTest ++ [lineFeed])
           (js "src/orders/placeholder.spec.ts")).
  vm_compute. reflexivity.
Defined.

(* ------------------------------------------------------------------ *)
(** ** The shape of a reason list *)

Lemma sublist_pushIf (c : bool) (r : jsstring) (rs all : list jsstring) :
  sublist rs all -> sublist (pushIf c r rs) (all ++ [r]).
Proof.
  intros H. induction H as [|x sub l H IH|x sub l H IH]; simpl.
  - destruct c; simpl.
    + apply sublist_keep, sublist_nil.
    + apply sublist_skip, sublist_nil.
  - apply sublist_skip, IH.
  - destruct c; simpl in *; apply sublist_keep, IH.
Qed.

Lemma sublist_In {A : Type} (sub l : list A) (x : A) :
  sublist sub l -> In x sub -> In x l.
Proof.
  induction 1 as [|y sub l H IH|y sub l H IH]; simpl; auto.
  intros [->|Hx]; auto.
Qed.

Lemma sublist_NoDup {A : Type} (sub l : list A) :
  sublist sub l -> NoDup l -> NoDup sub.
Proof.
  induction 1 as [|y sub l H IH|y sub l H IH]; intros Hl.
  - constructor.
  - inversion Hl; auto.
  - inversion Hl as [|? ? Hy Hl']; subst. constructor; auto.
    intros Hin. apply Hy. now apply (sublist_In sub l).
Qed.

Lemma sublist_length {A : Type} (sub l : list A) :
  sublist sub l -> (List.length sub <= List.length l)%nat.
Proof. induction 1; simpl; lia. Qed.

Lemma possibleReasons_NoDup (content : jsstring) :
  NoDup (possibleReasons content).
Proof.
  unfold possibleReasons.
  repeat (constructor;
          [ simpl; intros H;
            repeat (destruct H as [H|H];
                    [ apply (f_equal (firstn 2)) in H; vm_compute in H;
                      discriminate H | ]);
            exact H | ]).
  constructor.
Qed.

Lemma collectReasons_sublist (content filePath : jsstring) :
  sublist (collectReasons content filePath) (possibleReasons content).
Proof.
  unfold collectReasons, possibleReasons.
  repeat match goal with
         | |- sublist (pushIf ?c ?r ?rs) (?x :: ?l) =>
             change (x :: l) with (removelast (x :: l) ++ [r]);
             simpl removelast; apply sublist_pushIf
         end.
  constructor.
Qed.

(** X6.  The reasons of a record are the seven reason strings of the source
    with some left out: between one and seven reasons, in the order of the
    anti-patterns, and none of them twice. *)
Theorem reasons_ordered_and_distinct
  (content filePath : jsstring) (t : SuspiciousTest) :
  analyze content filePath = Some t ->
  sublist (reasons t) (possibleReasons content)
  /\ NoDup (reasons t)
  /\ (1 <= List.length (reasons t) <= 7)%nat.
Proof.
  intros H. pose proof (collectReasons_sublist content filePath) as S.
  rewrite analyze_by_count in H.
  destruct (verdictOfCount (triggeredCount content filePath)) eqn:V;
    [|discriminate].
  injection H as <-. simpl. split; [exact S|]. split.
  - apply (sublist_NoDup _ _ S). apply possibleReasons_NoDup.
  - split.
    + rewrite collectReasons_length.
      destruct (triggeredCount content filePath); [discriminate V|lia].
    + apply sublist_length in S. exact S.
Qed.

(** The theorem at the parser test of the sample project: reasons 1, 2 and
    5, in that order. *)
Lemma reasons_ordered_and_distinct_witness :
  exists t,
    analyze Sample.parserTest (js "src/orders/parser.test.ts") = Some t
    /\ reasons t = [reason1 1; reason2; reason5]
    /\ sublist (reasons t) (possibleReasons Sample.parserTest)
    /\ NoDup (reasons t)
    /\ (1 <= List.length (reasons t) <= 7)%nat.
Proof.
  eexists. split; [vm_compute; reflexivity|]. split; [reflexivity|].
  apply (reasons_ordered_and_distinct Sample.parserTest
           (js "src/orders/parser.test.ts")).
  vm_compute. reflexivity.
Defined.

(* ------------------------------------------------------------------ *)
(** ** Markers of runtime exercise *)

Lemma reason2_origin (content filePath : jsstring) :
  In reason2 (collectReasons content filePath) ->
  antiPattern2 content = true.
Proof.
  unfold collectReasons. intros H. reason_origin H. assumption.
Qed.

Lemma hasRuntimeTests_marker (content w : jsstring) :
  In w [js "render("; js "renderHook("; js ".toHaveBeenCalled"] ->
  includes content w = true -> hasRuntimeTests content = true.
Proof.
  intros Hw H. apply includes_true in H. destruct H as (pre & rest & -> & H).
  apply test_true. cbv [alts word]. cbn [run]. rewrite !run_lit.
  unfold accept.
  simpl in Hw. destruct Hw as [<-|[<-|[<-|[]]]]; rewrite ?H;
    repeat match goal with
           | |- context [startsWith rest ?w] => destruct (startsWith rest w)
           | |- context [match ?x with Some _ => _ | None => _ end] =>
               destruct x
           end;
    discriminate.
Qed.

(** X7.  A file whose text includes [render(], [renderHook(] or
    [.toHaveBeenCalled] never gets the reason of anti-pattern 2, and one
    whose text includes [render(] never gets the reason of anti-pattern 7
    either, whatever its path. *)
Theorem runtime_markers_silence_reasons (content filePath w : jsstring) :
  In w [js "render("; js "renderHook("; js ".toHaveBeenCalled"] ->
  includes content w = true ->
  ~ In reason2 (collectReasons content filePath)
  /\ (w = js "render(" -> ~ In reason7 (collectReasons content filePath)).
Proof.
  intros Hw H. split.
  - intros Hin. apply reason2_origin in Hin. unfold antiPattern2 in Hin.
    rewrite (hasRuntimeTests_marker content w Hw H) in Hin.
    now rewrite andb_false_r in Hin.
  - intros -> Hin. apply reason7_origin in Hin. unfold antiPattern7 in Hin.
    rewrite (hasRender_true content H) in Hin.
    now rewrite !andb_false_r in Hin.
Qed.

(** The theorem at a component test with a type declaration, named as an
    integration test. *)
Lemma runtime_markers_silence_reasons_witness :
  let content := js "interface Props { label: string }
test('renders', () => { render(Button({ label: 'x' })); });" in
  let filePath := js "src/integration.test.tsx" in
  hasTypeImports content = true
  /\ isIntegrationTest filePath = true
  /\ ~ In reason2 (collectReasons content filePath)
  /\ ~ In reason7 (collectReasons content filePath).
Proof.
  split; [reflexivity|]. split; [reflexivity|].
  destruct (runtime_markers_silence_reasons
              (js "interface Props { label: string }
test('renders', () => { render(Button({ label: 'x' })); });")
              (js "src/integration.test.tsx") (js "render("))
    as [H2 H7]; [simpl; auto|reflexivity|].
  split; [exact H2|]. now apply H7.
Defined.

(* ------------------------------------------------------------------ *)
(** ** Imports from a parent directory *)

Lemma startsWith_boundary (x y w : jsstring) (q : N) :
  startsWith (x ++ q :: y) w = true -> startsWith x w = true \/ In q w.
Proof.
  revert x. induction w as [|c w IH]; intros x H; simpl in *.
  - now left.
  - destruct x as [|d x]; simpl in H.
    + apply andb_prop in H. destruct H as [Hc _].
      apply N.eqb_eq in Hc. right. now left.
    + apply andb_prop in H. destruct H as [Hc Hw].
      destruct (IH x Hw) as [Hx|Hq].
      * left. now rewrite Hc, Hx.
      * right. now right.
Qed.

(** Greedy repetition of a class over a run of code units of the class:
    when the continuation succeeds right after the run, that is the
    result. *)
Lemma iterate_class (cls : N -> bool) (k : continuation) (e : position)
  (run_ rest : jsstring) :
  Forall (fun c => cls c = true) run_ ->
  match rest with
  | [] => True
  | c :: _ => cls c = false
  end ->
  forall n b,
    (List.length run_ <= n)%nat ->
    k (rev run_ ++ b) rest = Some e ->
    iterate (run (Char cls)) k n b (run_ ++ rest) = Some e.
Proof.
  intros Hrun Hrest. induction Hrun as [|c run_ Hc _ IH]; intros n b Hn Hk.
  - simpl in *. destruct n as [|n]; simpl; [exact Hk|].
    destruct rest as [|c rest]; [exact Hk|]. now rewrite Hrest.
  - destruct n as [|n]; simpl in Hn; [lia|].
    simpl. rewrite Hc.
    destruct (Nat.ltb_spec (List.length (run_ ++ rest))
                (S (List.length (run_ ++ rest)))); [|lia].
    rewrite IH; [reflexivity|lia|].
    simpl in Hk. now rewrite <- app_assoc in Hk.
Qed.

Lemma run_Seq (r1 r2 : regex) (k : continuation) (b a : jsstring) :
  run (Seq r1 r2) k b a = run r1 (run r2 k) b a.
Proof. reflexivity. Qed.

Lemma run_lit_app (w : jsstring) (k : continuation) (b rest : jsstring) :
  run (lit w) k b (w ++ rest) = k (rev w ++ b) rest.
Proof.
  rewrite run_lit.
  assert (P : forall v, startsWith (v ++ rest) v = true
                        /\ skipn (List.length v) (v ++ rest) = rest).
  { induction v as [|c v [IH1 IH2]]; simpl; [now split|].
    now rewrite N.eqb_refl, IH1, IH2. }
  destruct (P w) as [-> ->]. reflexivity.
Qed.

Lemma run_Char_ok (cls : N -> bool) (k : continuation) (b rest : jsstring)
  (c : N) :
  cls c = true -> run (Char cls) k b (c :: rest) = k (c :: b) rest.
Proof. intros H. simpl. now rewrite H. Qed.

Lemma run_Star_lit_stop (w : jsstring) (k : continuation) (b a : jsstring) :
  startsWith a w = false -> run (Star (lit w)) k b a = k b a.
Proof.
  intros H. simpl. destruct (List.length a); simpl; [reflexivity|].
  now rewrite run_lit, H.
Qed.

Lemma run_Alt_first (r1 r2 : regex) (k : continuation) (b a : jsstring) :
  run r1 k b a <> None -> run (Alt r1 r2) k b a <> None.
Proof. simpl. destruct (run r1 k b a); [discriminate|contradiction]. Qed.

Lemma run_Alt_second (r1 r2 : regex) (k : continuation) (b a : jsstring) :
  run r2 k b a <> None -> run (Alt r1 r2) k b a <> None.
Proof. simpl. destruct (run r1 k b a); [discriminate|auto]. Qed.

(** The pattern for source imports matches where an import from a parent
    directory starts. *)
Lemma parent_import_matches (b post tail : jsstring) (q q' : N) :
  In q [apostrophe; quotation] ->
  In q' [apostrophe; quotation] ->
  (tail = [] \/ exists path, tail = slash :: path) ->
  Forall (fun c => isNoneOf [apostrophe; quotation] c = true) tail ->
  endsWith (js ".." ++ tail) (js ".test") = false ->
  endsWith (js ".." ++ tail) (js ".spec") = false ->
  run (seqs [word "from "; Char (isAnyOf [apostrophe; quotation]);
             word "."; plus (word ".");
             opt (Seq (word "/")
                      (Star (Char (isNoneOf [apostrophe; quotation]))));
             NotBehind (js ".test"); NotBehind (js ".spec");
             Char (isAnyOf [apostrophe; quotation])])
    accept b (js "from " ++ q :: js "." ++ js "." ++ tail ++ q' :: post)
  <> None.
Proof.
  intros Hq Hq' Htail Hnq Htest Hspec.
  assert (Q : forall c, In c [apostrophe; quotation] ->
                        isAnyOf [apostrophe; quotation] c = true).
  { intros c [<-|[<-|[]]]; reflexivity. }
  assert (NotIn : forall w, In w [js ".test"; js ".spec"] -> ~ In q (rev w)).
  { intros w Hw Hin. simpl in Hq, Hw.
    destruct Hq as [<-|[<-|[]]]; destruct Hw as [<-|[<-|[]]];
      vm_compute in Hin; intuition discriminate. }
  assert (Behind : forall w b0,
             In w [js ".test"; js ".spec"] -> endsWith (js ".." ++ tail) w = false ->
             startsWith (rev (js ".." ++ tail) ++ q :: b0) (rev w) = false).
  { intros w b0 Hw Hf.
    destruct (startsWith (rev (js ".." ++ tail) ++ q :: b0) (rev w)) eqn:E;
      [|reflexivity].
    apply startsWith_boundary in E. destruct E as [E|E].
    - unfold endsWith in Hf. congruence.
    - now apply NotIn in E. }
  assert (After : forall b0,
             run (Seq (NotBehind (js ".test"))
                    (Seq (NotBehind (js ".spec"))
                       (Char (isAnyOf [apostrophe; quotation]))))
               accept (rev (js ".." ++ tail) ++ q :: b0) (q' :: post)
             <> None).
  { intros b0. cbn [run].
    rewrite (Behind (js ".test") b0); [|simpl; auto|exact Htest].
    rewrite (Behind (js ".spec") b0); [|simpl; auto|exact Hspec].
    rewrite (Q q' Hq'). discriminate. }
  cbv [seqs word plus opt].
  rewrite run_Seq, run_lit_app.
  rewrite run_Seq, (run_Char_ok _ _ _ _ q (Q q Hq)).
  rewrite run_Seq, run_lit_app.
  rewrite !run_Seq, run_lit_app.
  rewrite run_Star_lit_stop.
  2:{ destruct Htail as [->|[path ->]]; simpl.
      - simpl in Hq'. destruct Hq' as [<-|[<-|[]]]; reflexivity.
      - reflexivity. }
  rewrite run_Seq.
  destruct Htail as [->|[path ->]].
  - apply run_Alt_second. cbn [run app].
    specialize (After (rev (js "from ") ++ b)). exact After.
  - apply run_Alt_first.
    change ((slash :: path) ++ q' :: post) with (js "/" ++ path ++ q' :: post).
    rewrite run_Seq, run_lit_app.
    inversion Hnq as [|? ? _ Hpath]; subst.
    specialize (After (rev (js "from ") ++ b)).
    match type of After with
    | ?x <> None => destruct x as [e|] eqn:E; [|contradiction]
    end.
    cbn [run].
    rewrite (iterate_class (isNoneOf [apostrophe; quotation]) _ e
               path (q' :: post)); [discriminate|exact Hpath| | |].
    + simpl in Hq'. destruct Hq' as [<-|[<-|[]]]; reflexivity.
    + rewrite length_app. lia.
    + rewrite <- E. f_equal.
      simpl. rewrite <- !app_assoc. reflexivity.
Qed.

(** X8.  An import from a parent directory is taken for a source import:
    when the text holds [from], a quote, two dots, then nothing or a slash
    and a path without quotes, and a closing quote, and the path does not
    end in [.test] or [.spec], anti-pattern 4 does not fire, whatever else
    the file imports and whatever its path. *)
Theorem parent_import_recognised
  (pre post tail : jsstring) (q q' : N) (filePath : jsstring) :
  let content := pre ++ js "from " ++ q :: js ".." ++ tail ++ q' :: post in
  In q [apostrophe; quotation] ->
  In q' [apostrophe; quotation] ->
  (tail = [] \/ exists path, tail = slash :: path) ->
  Forall (fun c => isNoneOf [apostrophe; quotation] c = true) tail ->
  endsWith (js ".." ++ tail) (js ".test") = false ->
  endsWith (js ".." ++ tail) (js ".spec") = false ->
  hasSourceImports content = true
  /\ antiPattern4 content filePath = false
  /\ ~ In reason4 (collectReasons content filePath).
Proof.
  intros content Hq Hq' Htail Hnq Htest Hspec.
  assert (S : hasSourceImports content = true).
  { unfold hasSourceImports, content. apply test_true.
    now apply parent_import_matches. }
  split; [exact S|].
  assert (A : antiPattern4 content filePath = false).
  { unfold antiPattern4. rewrite S. simpl. now rewrite andb_false_r. }
  split; [exact A|].
  intros Hin. apply reason4_origin in Hin. congruence.
Qed.

(** The theorem at a test that imports a testing library and
    [../Button]. *)
Lemma parent_import_recognised_witness :
  let content := js "import { render } from '@testing-library/react';
import { Button } from '../Button';
test('renders', () => { render(Button()); });" in
  hasTestingLibImports content = true
  /\ hasSourceImports content = true
  /\ ~ In reason4 (collectReasons content (js "src/__tests__/Button.test.tsx")).
Proof.
  split; [reflexivity|].
  destruct (parent_import_recognised
              (js "import { render } from '@testing-library/react';
import { Button } ")
              (js ";
test('renders', () => { render(Button()); });")
              (js "/Button") apostrophe apostrophe
              (js "src/__tests__/Button.test.tsx"))
    as (S & _ & R).
  - simpl. auto.
  - simpl. auto.
  - right. exists (js "Button"). reflexivity.
  - repeat constructor.
  - reflexivity.
  - reflexivity.
  - split; [exact S|exact R].
Defined.

(* ------------------------------------------------------------------ *)
(** ** The default test-file pattern *)

Lemma run_InputEnd_Some (b a : jsstring) (e : position) :
  run InputEnd accept b a = Some e -> a = [].
Proof. destruct a; [reflexivity|discriminate]. Qed.

Lemma extensions_at_end (b a : jsstring) (e : position) :
  run extensions (run InputEnd accept) b a = Some e ->
  In a [js "ts"; js "tsx"; js "js"; js "jsx"; js "mjs"; js "cjs"].
Proof.
  cbv [extensions words word map alts]. intros H.
  repeat (apply run_Alt_Some in H; destruct H as [H|H]);
    apply run_lit_Some in H; destruct H as (rest & -> & H);
    apply run_InputEnd_Some in H; subst rest; rewrite app_nil_r;
    simpl; tauto.
Qed.

Lemma default_pattern_shape (b a : jsstring) (e : position) :
  run (seqs [word "."; words ["test"; "spec"]; word "."; extensions; InputEnd])
    accept b a = Some e ->
  exists kind ext,
    In kind [js "test"; js "spec"]
    /\ In ext [js "ts"; js "tsx"; js "js"; js "jsx"; js "mjs"; js "cjs"]
    /\ a = js "." ++ kind ++ js "." ++ ext.
Proof.
  cbv [seqs words word map alts]. rewrite run_Seq. intros H.
  apply run_lit_Some in H. destruct H as (rest & -> & H).
  rewrite run_Seq in H. apply run_Alt_Some in H.
  destruct H as [H|H];
    apply run_lit_Some in H; destruct H as (rest' & -> & H);
    rewrite run_Seq in H;
    apply run_lit_Some in H; destruct H as (rest'' & -> & H);
    rewrite run_Seq in H; apply extensions_at_end in H.
  - exists (js "test"), rest''. simpl. auto.
  - exists (js "spec"), rest''. simpl. auto.
Qed.

(** X4.  With the default pattern a name is that of a test file exactly
    when it ends in [.test.] or [.spec.] followed by one of [ts], [tsx],
    [js], [jsx], [mjs] and [cjs]: a dot comes before [test], and nothing
    comes after the extension. *)
Theorem default_pattern_names (item : jsstring) :
  existsb (fun pattern => test pattern item) DEFAULT_TEST_PATTERNS = true
  <-> exists stem kind ext,
        In kind [js "test"; js "spec"]
        /\ In ext [js "ts"; js "tsx"; js "js"; js "jsx"; js "mjs"; js "cjs"]
        /\ item = stem ++ js "." ++ kind ++ js "." ++ ext.
Proof.
  unfold DEFAULT_TEST_PATTERNS. simpl existsb. rewrite orb_false_r. split.
  - unfold test. intros H.
    match type of H with
    | match ?x with _ => _ end = true => destruct x as [found|] eqn:E
    end; [|discriminate].
    apply exec_Some in E. destruct E as (stem & rest & -> & E).
    apply default_pattern_shape in E.
    destruct E as (kind & ext & Hkind & Hext & ->).
    now exists stem, kind, ext.
  - intros (stem & kind & ext & Hkind & Hext & ->).
    apply test_true. simpl in Hkind, Hext.
    repeat match goal with
           | H : _ \/ _ |- _ => destruct H as [H|H]
           | H : False |- _ => destruct H
           end;
      subst; vm_compute; discriminate.
Qed.

(* ------------------------------------------------------------------ *)
(** ** More on the file locator *)

Section LocatorFacts.
Variable join : jsstring -> jsstring -> jsstring.
Variable patterns : list regex.


(** When [statSync] throws on an item, the loop ends there. *)
Lemma eachItem_stat_failure (recurse : jsstring -> dirent -> list jsstring)
  (dir item : jsstring) (before after : list (jsstring * dirent)) :
  forall files,
    eachItem join patterns recurse dir (before ++ (item, Missing) :: after) files
    = eachItem join patterns recurse dir before files.
Proof.
  induction before as [|[item' sub] before IH]; intros files; simpl;
    [reflexivity|].
  destruct sub as [| |listing]; [reflexivity| |].
  - simpl. destruct (existsb (fun pattern => test pattern item') patterns);
      apply IH.
  - destruct (isDirectory (Directory listing)
              && negb (includes item' (js "node_modules"))
              && negb (includes item' (js "dist"))); [apply IH|].
    destruct (existsb (fun pattern => test pattern item') patterns); apply IH.
Qed.




End LocatorFacts.

(** X2.  A failure of [statSync] on one item ends the listing of its
    directory: the items after it are not looked at, even when they are
    test files, and the result is what the items before it give. *)
Theorem stat_failure_hides_later_items
  (join : jsstring -> jsstring -> jsstring) (patterns : list regex)
  (dir item : jsstring) (before after : list (jsstring * dirent)) :
  findTestFilesIn join patterns dir
    (Directory (Some (before ++ (item, Missing) :: after)))
  = findTestFilesIn join patterns dir (Directory (Some before)).
Proof.
  simpl. apply eachItem_stat_failure.
Qed.



Lemma findTestFiles_nothingListed (h : Host) (dir : jsstring)
  (patterns : list regex) :
  nothingListed (entryAt h dir) = true -> findTestFiles h dir patterns = [].
Proof.
  unfold findTestFiles.
  destruct (entryAt h dir) as [| |[[|entry items]|]]; simpl;
    [reflexivity|reflexivity|reflexivity|discriminate|reflexivity].
Qed.

(** X1.  A configured directory that does not exist, cannot be read, is a
    file or is empty contributes no file; when that holds for all of them,
    and in particular for an empty list of directories, the scan reads no
    file and returns the empty report. *)
Theorem scan_without_files (h : Host) (options : DetectorOptions) :
  Forall (fun dir => nothingListed (entryAt h dir) = true)
         (orDefault (directories options) [js "src"; js "api"]) ->
  allTestFiles h options = [] /\ detectUselessTests h options = Normal [].
Proof.
  intros H.
  assert (E : allTestFiles h options = []).
  { unfold allTestFiles.
    induction H as [|dir dirs Hdir _ IH]; simpl; [reflexivity|].
    now rewrite (findTestFiles_nothingListed h dir _ Hdir), IH. }
  split; [exact E|].
  rewrite detectUselessTests_unfold, E. reflexivity.
Qed.

(** The theorem at a host that has neither [src] nor [api] and where no
    file can be read. *)
Lemma scan_without_files_witness :
  detectUselessTests Sample.distHost Sample.defaults = Normal [].
Proof.
  apply (scan_without_files Sample.distHost Sample.defaults).
  repeat constructor.
Defined.

(* ------------------------------------------------------------------ *)
(** ** More on the suite scanner *)

Lemma mapThrowing_length {A B : Type} (f : A -> completion B)
  (xs : list A) (ys : list B) :
  mapThrowing f xs = Normal ys -> List.length ys = List.length xs.
Proof.
  intros H. apply mapThrowing_Normal in H.
  induction H; simpl; congruence.
Qed.

Lemma notNull_length {A : Type} (xs : list (option A)) :
  (List.length (notNull xs) <= List.length xs)%nat.
Proof. induction xs as [|[x|] xs IH]; simpl; lia. Qed.

Lemma filter_length_le {A : Type} (f : A -> bool) (l : list A) :
  (List.length (filter f l) <= List.length l)%nat.
Proof. induction l as [|x l IH]; simpl; [lia|]. destruct (f x); simpl; lia. Qed.

Lemma mapThrowing_app {A B : Type} (f : A -> completion B) (xs ys : list A) :
  mapThrowing f (xs ++ ys) =
    bind (mapThrowing f xs) (fun xs' =>
    bind (mapThrowing f ys) (fun ys' => Normal (xs' ++ ys'))).
Proof.
  induction xs as [|x xs IH]; simpl.
  - destruct (mapThrowing f ys); reflexivity.
  - destruct (f x) as [y|e]; simpl; [|reflexivity].
    rewrite IH. destruct (mapThrowing f xs) as [xs'|e]; simpl; [|reflexivity].
    destruct (mapThrowing f ys); reflexivity.
Qed.

Lemma notNull_app {A : Type} (xs ys : list (option A)) :
  notNull (xs ++ ys) = notNull xs ++ notNull ys.
Proof.
  induction xs as [|[x|] xs IH]; simpl; [reflexivity| |exact IH].
  now rewrite IH.
Qed.

(** X9.  A scan that returns reports nothing of its own: every record is
    the verdict of [analyzeTestFile] on an enumerated path whose content
    was read, its rank is at least that of the minimum confidence, and
    there are no more records than enumerated paths. *)
Theorem report_sound
  (h : Host) (options : DetectorOptions) (out : list SuspiciousTest) :
  detectUselessTests h options = Normal out ->
  (forall t, In t out ->
     In (file t) (allTestFiles h options)
     /\ (exists content,
           readFileSync h (file t) = Normal content
           /\ analyze content (file t) = Some t)
     /\ (exists level,
           confidenceLevels (orDefault (minConfidence options) (js "low"))
           = Some level
           /\ (level <= rank (confidence t))%Z))
  /\ (List.length out <= List.length (allTestFiles h options))%nat.
Proof.
  intros H. split.
  - intros t Hin.
    destruct (detectUselessTests_In h options out t H Hin)
      as (p & content & Hp & Hread & Ha & Hlevel).
    destruct (analyze_reasons content p t Ha) as [Hfile _]. subst p.
    split; [exact Hp|]. split; [now exists content|].
    unfold atLeast, geNumber in Hlevel. rewrite confidenceLevels_name in Hlevel.
    destruct (confidenceLevels (orDefault (minConfidence options) (js "low")))
      as [level|]; [|discriminate].
    exists level. split; [reflexivity|]. now apply Z.leb_le.
  - rewrite detectUselessTests_unfold in H.
    destruct (mapThrowing (analyzeTestFile h) (allTestFiles h options))
      as [analyzed|e] eqn:Em; simpl in H; [|discriminate].
    injection H as <-.
    rewrite (Permutation_length (sort_Permutation _ compareTests _)).
    apply mapThrowing_length in Em. rewrite <- Em.
    etransitivity; [apply filter_length_le|apply notNull_length].
Qed.

(** The theorem at the first record of the sample report. *)
Lemma report_sound_witness :
  exists t rest,
    detectUselessTests Sample.host (Sample.withLevel "medium")
    = Normal (t :: rest)
    /\ In (file t) (allTestFiles Sample.host (Sample.withLevel "medium"))
    /\ (List.length (t :: rest) <= 4)%nat.
Proof.
  eexists. eexists. split; [vm_compute; reflexivity|].
  destruct (report_sound Sample.host (Sample.withLevel "medium") _
              ltac:(vm_compute; reflexivity)) as [Hall Hlen].
  split.
  - apply Hall. left. reflexivity.
  - exact Hlen.
Defined.

(** X10.  A scan that returns loses nothing: an enumerated file whose
    content gives a record of a rank that is at least the minimum one has
    that record in the report. *)
Theorem report_complete
  (h : Host) (options : DetectorOptions) (out : list SuspiciousTest)
  (filePath content : jsstring) (t : SuspiciousTest) (level : Z) :
  detectUselessTests h options = Normal out ->
  In filePath (allTestFiles h options) ->
  readFileSync h filePath = Normal content ->
  analyze content filePath = Some t ->
  confidenceLevels (orDefault (minConfidence options) (js "low")) = Some level ->
  (level <= rank (confidence t))%Z ->
  In t out.
Proof.
  rewrite detectUselessTests_unfold. intros H Hin Hread Ha Hlevel Hle.
  destruct (mapThrowing (analyzeTestFile h) (allTestFiles h options))
    as [analyzed|e] eqn:Em; simpl in H; [|discriminate].
  injection H as <-.
  apply sort_In. apply filter_In. split.
  - apply notNull_In. apply mapThrowing_Normal in Em.
    induction Em as [|p r ps rs Hp _ IH]; [destruct Hin|].
    destruct Hin as [->|Hin]; [|right; now apply IH].
    left. unfold analyzeTestFile in Hp. rewrite Hread in Hp. simpl in Hp.
    congruence.
  - unfold atLeast, geNumber. rewrite confidenceLevels_name, Hlevel.
    now apply Z.leb_le.
Qed.

(** The theorem at the placeholder test of the sample project, of medium
    confidence, in a scan at level medium. *)
Lemma report_complete_witness :
  exists out t,
    detectUselessTests Sample.host (Sample.withLevel "medium") = Normal out
    /\ file t = js "src/orders/placeholder.spec.ts"
    /\ confidence t = medium
    /\ In t out.
Proof.
  eexists. eexists.
  split; [vm_compute; reflexivity|].
  split; [|split];
    [| |apply (report_complete Sample.host (Sample.withLevel "medium") _
              (js "src/orders/placeholder.spec.ts") Sample.placeholderTest
              _ 2%Z)].
  3: vm_compute; reflexivity.
  3: vm_compute; auto 10.
  3: reflexivity.
  3: vm_compute; reflexivity.
  3: reflexivity.
  3: vm_compute; discriminate.
  - reflexivity.
  - reflexivity.
Defined.

(** X11.  Directories are scanned one after the other with no memory of
    what was seen: the report for a list of directories followed by a
    second list holds the records of the two reports together, so a file
    that is reached twice is reported twice. *)
Theorem report_of_appended_directories
  (h : Host) (options : DetectorOptions) (dirs1 dirs2 : list jsstring)
  (out1 out2 : list SuspiciousTest) :
  detectUselessTests h (optionsFor dirs1 options) = Normal out1 ->
  detectUselessTests h (optionsFor dirs2 options) = Normal out2 ->
  exists out,
    detectUselessTests h (optionsFor (dirs1 ++ dirs2) options) = Normal out
    /\ Permutation out (out1 ++ out2).
Proof.
  rewrite !detectUselessTests_unfold.
  assert (E : allTestFiles h (optionsFor (dirs1 ++ dirs2) options)
              = allTestFiles h (optionsFor dirs1 options)
                ++ allTestFiles h (optionsFor dirs2 options)).
  { unfold allTestFiles. simpl. apply flat_map_app. }
  rewrite E, mapThrowing_app.
  destruct (mapThrowing (analyzeTestFile h)
              (allTestFiles h (optionsFor dirs1 options))) as [a1|e];
    simpl; [|discriminate].
  destruct (mapThrowing (analyzeTestFile h)
              (allTestFiles h (optionsFor dirs2 options))) as [a2|e];
    simpl; [|discriminate].
  intros H1 H2. injection H1 as <-. injection H2 as <-.
  eexists. split; [reflexivity|].
  rewrite notNull_app, filter_app.
  rewrite !sort_Permutation. reflexivity.
Qed.

(** The theorem at [src] given twice: six records for three. *)
Lemma report_of_appended_directories_witness :
  exists out,
    detectUselessTests Sample.host
      (optionsFor ([js "src"] ++ [js "src"]) Sample.defaults) = Normal out
    /\ List.length out = 6%nat.
Proof.
  destruct (report_of_appended_directories Sample.host Sample.defaults
              [js "src"] [js "src"] _ _
              ltac:(vm_compute; reflexivity) ltac:(vm_compute; reflexivity))
    as (out & Hout & Hperm).
  exists out. split; [exact Hout|].
  rewrite (Permutation_length Hperm). reflexivity.
Defined.

Section Stability.
Variable A : Type.
Variable comparator : A -> A -> option Z.
Variable tie : A -> bool.
Hypothesis tie_notAfter :
  forall x y, tie x = true -> tie y = true -> notAfter comparator x y = true.

Lemma insert_filter_tie (a : A) (l : list A) :
  filter tie (insert comparator a l) = filter tie (a :: l).
Proof.
  induction l as [|b l IH]; simpl; [reflexivity|].
  destruct (notAfter comparator a b) eqn:E; simpl; [reflexivity|].
  rewrite IH. simpl.
  destruct (tie a) eqn:Ta; [|reflexivity].
  destruct (tie b) eqn:Tb; [|reflexivity].
  rewrite (tie_notAfter a b Ta Tb) in E. discriminate E.
Qed.

Lemma sort_filter_tie (l : list A) :
  filter tie (sort comparator l) = filter tie l.
Proof.
  induction l as [|a l IH]; simpl; [reflexivity|].
  rewrite insert_filter_tie. simpl. now rewrite IH.
Qed.
End Stability.

(** X12.  Records that tie, with the same confidence and the same line
    count, stay in the order in which their files were enumerated. *)
Theorem report_keeps_order_of_ties
  (h : Host) (options : DetectorOptions)
  (analyzed : list (option SuspiciousTest)) (out : list SuspiciousTest)
  (key : SuspiciousTest) :
  mapThrowing (analyzeTestFile h) (allTestFiles h options) = Normal analyzed ->
  detectUselessTests h options = Normal out ->
  filter (sameKey key) out
  = filter (sameKey key)
      (filter
         (atLeast (confidenceLevels (orDefault (minConfidence options) (js "low"))))
         (notNull analyzed)).
Proof.
  intros Em. rewrite detectUselessTests_unfold, Em. simpl.
  intros H. injection H as <-.
  apply sort_filter_tie. intros x y Hx Hy.
  apply notAfter_compareTests. right.
  unfold sameKey in Hx, Hy.
  apply andb_prop in Hx, Hy. destruct Hx as [Rx Lx], Hy as [Ry Ly].
  apply Z.eqb_eq in Rx, Ry. apply Nat.eqb_eq in Lx, Ly.
  split; [|lia].
  destruct (confidence x), (confidence y); simpl in *; congruence || lia.
Qed.

(** The theorem at a directory given twice: the two records of each file
    tie, and each pair stays together in the report. *)
Lemma report_keeps_order_of_ties_witness :
  exists out t,
    detectUselessTests Sample.host
      (optionsFor [js "src"; js "src"] Sample.defaults) = Normal out
    /\ In t out
    /\ List.length (filter (sameKey t) out) = 2%nat.
Proof.
  eexists. eexists. split; [vm_compute; reflexivity|].
  split; [left; reflexivity|].
  rewrite (report_keeps_order_of_ties Sample.host
             (optionsFor [js "src"; js "src"] Sample.defaults) _ _ _
             ltac:(vm_compute; reflexivity) ltac:(vm_compute; reflexivity)).
  vm_compute. reflexivity.
Defined.

(** X13.  Whether a scan throws, and what it throws, does not depend on
    the minimum confidence: a file that cannot be read fails the scan even
    when its record would have been filtered out. *)
Theorem throw_independent_of_level
  (h : Host) (dirs : option (list jsstring)) (patterns : option (list regex))
  (level1 level2 e : jsstring) :
  detectUselessTests h (optionsWith dirs level1 patterns) = Throw e
  <-> detectUselessTests h (optionsWith dirs level2 patterns) = Throw e.
Proof.
  rewrite !detectUselessTests_unfold.
  change (allTestFiles h (optionsWith dirs level2 patterns))
    with (allTestFiles h (optionsWith dirs level1 patterns)).
  destruct (mapThrowing (analyzeTestFile h)
              (allTestFiles h (optionsWith dirs level1 patterns)));
    simpl; split; intros H; congruence.
Qed.

(* ------------------------------------------------------------------ *)
(** ** The command line *)

Lemma jsstring_eqb_eq (s t : jsstring) : jsstring_eqb s t = true <-> s = t.
Proof.
  unfold jsstring_eqb. destruct (list_eq_dec N.eq_dec s t); split;
    congruence.
Qed.

Lemma jsstring_eqb_neq (s t : jsstring) : s <> t -> jsstring_eqb s t = false.
Proof.
  unfold jsstring_eqb. destruct (list_eq_dec N.eq_dec s t); congruence.
Qed.

Lemma parseArgs_alone (arg : jsstring) (rest directories : list jsstring)
  (minConfidence : jsstring) (jsonOutput : bool) :
  arg <> js "--dirs" -> arg <> js "--min-confidence" ->
  parseArgs (arg :: rest) directories minConfidence jsonOutput =
    if jsstring_eqb arg (js "--json")
    then parseArgs rest directories minConfidence true
    else if jsstring_eqb arg (js "--help") || jsstring_eqb arg (js "-h")
    then ShowHelp
    else parseArgs rest directories minConfidence jsonOutput.
Proof.
  intros Hd Hm. simpl.
  rewrite (jsstring_eqb_neq _ _ Hd), (jsstring_eqb_neq _ _ Hm). simpl.
  now destruct rest.
Qed.

(** X17.  The loop over the arguments refuses nothing.  An argument that is
    none of the five flags is skipped; [--dirs] and [--min-confidence] are
    skipped too when they come last, and when the empty string follows
    them both are skipped: the settings stay as they were. *)
Theorem arguments_silently_ignored
  (rest directories : list jsstring) (minConfidence : jsstring)
  (jsonOutput : bool) :
  (forall arg,
     unknownArgument arg ->
     parseArgs (arg :: rest) directories minConfidence jsonOutput
     = parseArgs rest directories minConfidence jsonOutput)
  /\ (forall flag,
        In flag [js "--dirs"; js "--min-confidence"] ->
        parseArgs [flag] directories minConfidence jsonOutput
        = Scan directories minConfidence jsonOutput
        /\ parseArgs (flag :: [] :: rest) directories minConfidence jsonOutput
           = parseArgs rest directories minConfidence jsonOutput).
Proof.
  split.
  - intros arg Hu. unfold unknownArgument in Hu. simpl in Hu.
    rewrite parseArgs_alone by (intros ->; tauto).
    rewrite !jsstring_eqb_neq by (intros ->; tauto). reflexivity.
  - intros flag [<-|[<-|[]]]; split; try reflexivity.
    + simpl. now destruct rest.
    + simpl. now destruct rest.
Qed.

(** X18.  [--dirs] followed by a text that is not empty replaces the
    directories, whatever they were, by the pieces of the text between its
    commas: joined by commas the pieces give the text back, no piece holds
    a comma, and there is one piece more than there are commas, so that a
    comma at the end gives an empty directory name. *)
Theorem dirs_argument_split
  (value : jsstring) (rest directories : list jsstring)
  (minConfidence : jsstring) (jsonOutput : bool) :
  value <> [] ->
  parseArgs (js "--dirs" :: value :: rest) directories minConfidence jsonOutput
  = parseArgs rest (split comma value) minConfidence jsonOutput
  /\ joinWith comma (split comma value) = value
  /\ Forall (fun piece => ~ In comma piece) (split comma value)
  /\ List.length (split comma value) = S (count_occ N.eq_dec value comma).
Proof.
  intros Hv. split; [|split; [|split]].
  - destruct value as [|c value]; [contradiction|]. reflexivity.
  - apply split_joinWith.
  - apply split_pieces.
  - apply split_length.
Qed.

(** The theorem at [--dirs src,tests,]: three directories, the last one
    with the empty name. *)
Lemma dirs_argument_split_witness :
  parseArgs [js "--dirs"; js "src,tests,"] [js "src"; js "api"] (js "low") false
  = Scan [js "src"; js "tests"; []] (js "low") false.
Proof.
  destruct (dirs_argument_split (js "src,tests,") [] [js "src"; js "api"]
              (js "low") false) as [H _]; [discriminate|].
  rewrite H. reflexivity.
Defined.

Lemma parseArgs_help (before after : list jsstring) (flag : jsstring) :
  Forall (fun arg => arg <> js "--dirs" /\ arg <> js "--min-confidence") before ->
  In flag [js "--help"; js "-h"] ->
  forall directories minConfidence jsonOutput,
    parseArgs (before ++ flag :: after) directories minConfidence jsonOutput
    = ShowHelp.
Proof.
  intros Hb Hflag. induction Hb as [|arg before [Hd Hm] _ IH];
    intros directories minConfidence jsonOutput.
  - simpl app. rewrite parseArgs_alone.
    + destruct Hflag as [<-|[<-|[]]]; reflexivity.
    + destruct Hflag as [<-|[<-|[]]]; discriminate.
    + destruct Hflag as [<-|[<-|[]]]; discriminate.
  - simpl app. rewrite parseArgs_alone by assumption.
    destruct (jsstring_eqb arg (js "--json")); [apply IH|].
    destruct (jsstring_eqb arg (js "--help") || jsstring_eqb arg (js "-h"));
      [reflexivity|apply IH].
Qed.

(** X14.  [--help] or [-h], when the loop reaches it, ends the program at
    once: the help text is printed, the exit code is 0 and nothing is
    scanned, whatever the host and whatever comes after.  The loop reaches
    it when no [--dirs] or [--min-confidence] comes before it. *)
Theorem help_exits_without_scanning
  (h : Host) (stringify : list SuspiciousTest -> jsstring)
  (before after : list jsstring) (flag : jsstring) :
  Forall (fun arg => arg <> js "--dirs" /\ arg <> js "--min-confidence") before ->
  In flag [js "--help"; js "-h"] ->
  cli h stringify (before ++ flag :: after) = Exited [helpText] 0.
Proof.
  intros Hb Hflag. unfold cli.
  now rewrite (parseArgs_help before after flag Hb Hflag).
Qed.

(** The theorem at [--json -h --dirs lib] on a host where every read
    fails. *)
Lemma help_exits_without_scanning_witness :
  cli Sample.vanished (fun _ => []) [js "--json"; js "-h"; js "--dirs"; js "lib"]
  = Exited [helpText] 0.
Proof.
  apply (help_exits_without_scanning Sample.vanished (fun _ => [])
           [js "--json"] [js "--dirs"; js "lib"] (js "-h")).
  - repeat constructor; discriminate.
  - simpl. auto.
Defined.

(** X15.  The exit code is 0 or 1, and it is 1 exactly when the scan ran
    and returned a report that is not empty, with or without [--json]. *)
Theorem exit_code_tells_findings
  (h : Host) (stringify : list SuspiciousTest -> jsstring)
  (args : list jsstring) (stdout : list jsstring) (code : nat) :
  cli h stringify args = Exited stdout code ->
  (code = 0%nat \/ code = 1%nat)
  /\ (code = 1%nat <->
      exists directories minConfidence jsonOutput results,
        parseArgs args [js "src"; js "api"] (js "low") false
        = Scan directories minConfidence jsonOutput
        /\ detectUselessTests h
             {| directories := Some directories;
                minConfidence := Some minConfidence;
                testPatterns := None |} = Normal results
        /\ results <> []).
Proof.
  unfold cli.
  destruct (parseArgs args [js "src"; js "api"] (js "low") false)
    as [|directories minConfidence jsonOutput] eqn:Ep.
  - intros H. injection H as <- <-. split; [now left|].
    split; [discriminate|]. intros (d & m & j & r & Hp & _). discriminate Hp.
  - destruct (detectUselessTests h _) as [results|e] eqn:Ed; [|discriminate].
    assert (Code : forall out,
               Exited out (if (0 <? List.length results)%nat then 1 else 0)%nat
               = Exited stdout code ->
               (code = 0%nat \/ code = 1%nat)
               /\ (code = 1%nat <-> results <> [])).
    { intros out H. injection H as _ <-.
      destruct results; simpl; split; auto; split; congruence. }
    assert (Final : (code = 0%nat \/ code = 1%nat)
                    /\ (code = 1%nat <-> results <> []) ->
                    (code = 0%nat \/ code = 1%nat)
                    /\ (code = 1%nat <->
                        exists d m j r,
                          Scan directories minConfidence jsonOutput = Scan d m j
                          /\ detectUselessTests h
                               {| directories := Some d;
                                  minConfidence := Some m;
                                  testPatterns := None |} = Normal r
                          /\ r <> [])).
    { intros [C1 C2]. split; [exact C1|]. rewrite C2. split.
      - intros Hr. now exists directories, minConfidence, jsonOutput, results.
      - intros (d & m & j & r & Hp & Hd & Hr). injection Hp as <- <- <-.
        congruence. }
    intros H. apply Final.
    destruct jsonOutput; [now apply (Code [stringify results])|].
    destruct results as [|t results]; simpl in H.
    + injection H as <- <-. split; [now left|]. split; congruence.
    + now apply (Code (textReport (t :: results))).
Qed.

(** The theorem at the sample project: three findings, exit code 1. *)
Lemma exit_code_tells_findings_witness :
  exists stdout,
    cli Sample.host (fun _ => []) [js "--json"] = Exited stdout 1
    /\ exists directories minConfidence jsonOutput results,
         parseArgs [js "--json"] [js "src"; js "api"] (js "low") false
         = Scan directories minConfidence jsonOutput
         /\ detectUselessTests Sample.host
              {| directories := Some directories;
                 minConfidence := Some minConfidence;
                 testPatterns := None |} = Normal results
         /\ results <> [].
Proof.
  eexists. split; [vm_compute; reflexivity|].
  apply (exit_code_tells_findings Sample.host (fun _ => []) [js "--json"]
           _ 1 ltac:(vm_compute; reflexivity)).
  reflexivity.
Defined.




(* ------------------------------------------------------------------ *)
(** ** The comparator of the report *)

(** X19.  The comparator handed to [sort] is a consistent comparison: it
    always answers a number, swapping its arguments negates the answer, the
    answer is zero exactly for two records of the same confidence and line
    count, and "not after" is transitive.  The order of the report is
    therefore the same in every engine with a stable sort. *)
Theorem comparator_consistent (a b c : SuspiciousTest) :
  (exists v,
     compareTests a b = Some v
     /\ compareTests b a = Some (- v)%Z
     /\ (v = 0%Z <-> sameKey a b = true))
  /\ (notAfter compareTests a b = true ->
      notAfter compareTests b c = true ->
      notAfter compareTests a c = true).
Proof.
  split.
  - unfold compareTests, sameKey. rewrite !confidenceLevels_name. simpl.
    destruct (confidence a), (confidence b); simpl;
      try (eexists; split; [reflexivity|]; split; [reflexivity|];
           split; [discriminate|discriminate]);
      (exists (Z.of_nat (lineCount b) - Z.of_nat (lineCount a))%Z;
       split; [reflexivity|]; split; [f_equal; lia|];
       rewrite Nat.eqb_eq; lia).
  - rewrite !notAfter_compareTests. apply precedes_trans.
Qed.

(** The theorem at a high record of 6 lines and a medium one of 30: the
    high one goes first. *)
Lemma comparator_consistent_witness :
  let a := {| file := js "a.test.ts"; reasons := [reason2; reason4; reason5];
              confidence := high; lineCount := 6 |} in
  let b := {| file := js "b.test.ts"; reasons := [reason2; reason5];
              confidence := medium; lineCount := 30 |} in
  exists v,
    compareTests a b = Some v
    /\ compareTests b a = Some (- v)%Z
    /\ (v = 0%Z <-> sameKey a b = true).
Proof.
  exact (proj1 (comparator_consistent
                  {| file := js "a.test.ts";
                     reasons := [reason2; reason4; reason5];
                     confidence := high; lineCount := 6 |}
                  {| file := js "b.test.ts"; reasons := [reason2; reason5];
                     confidence := medium; lineCount := 30 |}
                  {| file := js "b.test.ts"; reasons := [reason2; reason5];
                     confidence := medium; lineCount := 30 |})).
Defined.

(** The theorem at [Button.spec.mjs]. *)
Lemma default_pattern_names_witness :
  existsb (fun pattern => test pattern (js "Button.spec.mjs"))
    DEFAULT_TEST_PATTERNS = true.
Proof.
  apply (proj2 (default_pattern_names (js "Button.spec.mjs"))).
  exists (js "Button"), (js "spec"), (js "mjs").
  repeat split; simpl; auto 10.
Defined.

(** The theorem at the sample project with the vanished file: the scans at
    the levels high and low throw the same error. *)
Lemma throw_independent_of_level_witness :
  detectUselessTests Sample.vanished (optionsWith None (js "high") None)
  = Throw (js "ENOENT").
Proof.
  apply (proj1 (throw_independent_of_level Sample.vanished None None
                  (js "low") (js "high") (js "ENOENT"))).
  vm_compute. reflexivity.
Defined.

(** The theorem at a misspelt flag: its value is skipped as well, and the
    scan runs with the defaults. *)
Lemma arguments_silently_ignored_witness :
  parseArgs [js "--min-confdence"; js "high"] [js "src"; js "api"] (js "low") false
  = Scan [js "src"; js "api"] (js "low") false.
Proof.
  destruct (arguments_silently_ignored [js "high"] [js "src"; js "api"]
              (js "low") false) as [Hskip _].
  rewrite Hskip.
  - destruct (arguments_silently_ignored [] [js "src"; js "api"]
                (js "low") false) as [Hskip' _].
    rewrite Hskip'; [reflexivity|].
    unfold unknownArgument. simpl. intuition discriminate.
  - unfold unknownArgument. simpl. intuition discriminate.
Defined.
